(** * Uchiha AI: document digitisation and summarisation (app.py)

    A shallow embedding of the functions of [app.py] and of the three
    button handlers of its Streamlit script, with the statements of the
    specification proved (or refuted and amended) against them.

    - Python [str] values are sequences of Unicode code points ([list N]).
    - Everything outside [app.py] (the OpenAI-compatible clients, pdf2image,
      PIL, pytesseract, reportlab, the Unicode case table) is a field of the
      environment record [Env].
    - Mutable state ([st.session_state]) and the observable interactions
      (remote calls, toasts) live in a [World] threaded by a small
      state-and-exception monad. *)

From Stdlib Require Import List NArith Bool Ascii String Lia.
Import ListNotations.
Local Open Scope list_scope.

(* ================================================================== *)
(** ** Python strings *)
(* ================================================================== *)

Module PyStr.

(** A Python [str]: its code points, in order. *)
Definition str := list N.

(** An ASCII literal of the source. *)
Definition lit (s : string) : str := map N_of_ascii (list_ascii_of_string s).

(** [a == b] on strings. *)
Fixpoint str_eqb (a b : str) : bool :=
  match a, b with
  | [], [] => true
  | x :: a', y :: b' => N.eqb x y && str_eqb a' b'
  | _, _ => false
  end.

(** Truthiness of a string: [bool(s)]. *)
Definition nonempty (s : str) : bool :=
  match s with [] => false | _ :: _ => true end.

(** [c.isspace()]: the code points [str.strip()] removes by default. *)
Definition is_space (c : N) : bool :=
  ((9 <=? c) && (c <=? 13) || (28 <=? c) && (c <=? 32)
   || (c =? 133) || (c =? 160) || (c =? 5760)
   || (8192 <=? c) && (c <=? 8202)
   || (c =? 8232) || (c =? 8233) || (c =? 8239) || (c =? 8287)
   || (c =? 12288))%N.

Fixpoint lstrip (s : str) : str :=
  match s with
  | [] => []
  | c :: r => if is_space c then lstrip r else s
  end.

Definition rstrip (s : str) : str := rev (lstrip (rev s)).

(** [s.strip()]. *)
Definition strip (s : str) : str := rstrip (lstrip s).

(** [s.upper()].  ASCII letters are shifted; the mapping of the other code
    points comes from the interpreter's Unicode tables, taken as [tbl]
    (one code point may map to several, as U+00DF does). *)
Definition upper_char (tbl : N -> str) (c : N) : str :=
  if ((97 <=? c) && (c <=? 122))%N then [(c - 32)%N]
  else if (c <? 128)%N then [c]
  else tbl c.

Definition upper (tbl : N -> str) (s : str) : str := flat_map (upper_char tbl) s.

(** [s.replace(old, new)] for a one-character [old], the only form the
    source uses. *)
Definition replace (old : N) (new : str) (s : str) : str :=
  flat_map (fun c => if (c =? old)%N then new else [c]) s.

(** [s.split(sep)] for a one-character [sep]: never the empty list. *)
Fixpoint split (sep : N) (s : str) : list str :=
  match s with
  | [] => [[]]
  | c :: r =>
      if (c =? sep)%N then [] :: split sep r
      else match split sep r with
           | [] => [[c]]
           | l :: ls => (c :: l) :: ls
           end
  end.

(** [sep.join(parts)]. *)
Fixpoint join (sep : str) (parts : list str) : str :=
  match parts with
  | [] => []
  | [p] => p
  | p :: rest => p ++ sep ++ join sep rest
  end.

Fixpoint startswith (s p : str) : bool :=
  match p, s with
  | [], _ => true
  | x :: p', y :: s' => N.eqb x y && startswith s' p'
  | _ :: _, [] => false
  end.

(** [needle in hay]. *)
Fixpoint contains (needle hay : str) : bool :=
  startswith hay needle
  || match hay with
     | [] => false
     | _ :: r => contains needle r
     end.

(** [base64.b64encode(bs).decode('utf-8')] on a byte sequence. *)
Definition b64_alphabet : str :=
  lit "ABCDEFGHIJKLMNOPQRSTUVWXYZabcdefghijklmnopqrstuvwxyz0123456789+/".

Definition b64_digit (i : N) : N := nth (N.to_nat i) b64_alphabet 0%N.

Fixpoint b64encode (bs : list N) : str :=
  match bs with
  | [] => []
  | [a] =>
      [b64_digit (N.shiftr a 2);
       b64_digit (N.shiftl (N.land a 3) 4); 61%N; 61%N]
  | [a; b] =>
      [b64_digit (N.shiftr a 2);
       b64_digit (N.lor (N.shiftl (N.land a 3) 4) (N.shiftr b 4));
       b64_digit (N.shiftl (N.land b 15) 2); 61%N]
  | a :: b :: c :: r =>
      b64_digit (N.shiftr a 2)
      :: b64_digit (N.lor (N.shiftl (N.land a 3) 4) (N.shiftr b 4))
      :: b64_digit (N.lor (N.shiftl (N.land b 15) 2) (N.shiftr c 6))
      :: b64_digit (N.land c 63)
      :: b64encode r
  end.

End PyStr.
Export PyStr.

(* ================================================================== *)
(** ** The world outside app.py *)
(* ================================================================== *)

(** The two module-level clients. *)
Inductive Client := openai_client | groq_client.

(** The keyword arguments of [client.chat.completions.create]: the model,
    the text of the single user message, the image URL when the content is
    the two-part list, and [max_tokens] when given. *)
Record Request := {
  req_model : str;
  req_text : str;
  req_image_url : option str;
  req_max_tokens : option N
}.

(** The functions of app.py whose invocations are counted. *)
Inductive Fn :=
| Fget_routing_decision
| Fextract_text_standard
| Fextract_text_vision
| Fcategorize_document
| Fsummarize_text
| Fgenerate_pdf.

(** What a test double would observe: entries into the functions of
    app.py, calls to a remote provider, and toasts. *)
Inductive Event :=
| Call (f : Fn)
| Remote (c : Client) (r : Request)
| Toast (msg : str) (icon : str).

(** Result of a Python expression: a value, or an exception that derives
    from [Exception], with its [str(e)]. *)
Inductive Outcome (A : Type) :=
| Ok (a : A)
| Raise (e : str).
Arguments Ok {A} a.
Arguments Raise {A} e.

(** reportlab paragraphs: markup text and the sample style used. *)
Inductive Style := Title | Normal.

Record Paragraph := { para_text : str; para_style : Style }.

(** The external collaborators.  [chat c r] stands for
    [c.chat.completions.create] applied to the keyword arguments [r] and
    projected by [.choices[0].message.content], the remote
    model call of the interface: a text, or a failure.  No run of a function
    or of a handler of app.py sends the same request to the same client
    twice, so a function of the client and the request loses no behaviour.
    The calls to pdf2image, PIL and pytesseract depend on their arguments
    only.  [chat] is the reply whose content is a text; the client library
    types the content as a text or [None], and the vision path, which
    returns it unchecked, is given with such replies as
    [extract_text_vision_content] below. *)
Record Env := {
  Image : Type;
  chat : Client -> Request -> Outcome str;
  convert_from_bytes : list N -> Outcome (list Image);
  Image_open : list N -> Outcome Image;
  thumbnail : Image -> N * N -> Outcome Image;
  save_jpeg : Image -> Outcome (list N);
  image_to_string : Image -> Outcome str;
  unicode_upper : N -> str;
  doc_build : list Paragraph -> Outcome (list N)
}.

(** [st.file_uploader]'s value: declared media type and content. *)
Record UploadedFile := { file_type : str; file_value : list N }.

(** [st.session_state]. *)
Record SessionState := {
  summary_result : option str;
  extracted_text : option str;
  doc_category : str;
  failover_active : bool
}.

Record World := { session : SessionState; log : list Event }.

(** The session after the initialisation blocks of the script. *)
Definition initial_session : SessionState :=
  {| summary_result := None; extracted_text := None;
     doc_category := lit "Summary"; failover_active := false |}.

(* ================================================================== *)
(** ** State and exceptions *)
(* ================================================================== *)

Definition M (A : Type) : Type := World -> Outcome A * World.

Definition ret {A} (a : A) : M A := fun w => (Ok a, w).

Definition bind {A B} (m : M A) (k : A -> M B) : M B :=
  fun w => match m w with
           | (Ok a, w') => k a w'
           | (Raise e, w') => (Raise e, w')
           end.

(** [try: m  except Exception as e: h e]. *)
Definition try_except {A} (m : M A) (h : str -> M A) : M A :=
  fun w => match m w with
           | (Ok a, w') => (Ok a, w')
           | (Raise e, w') => h e w'
           end.

(** Sequencing of calls that neither read nor change the world. *)
Definition obind {A B} (o : Outcome A) (k : A -> Outcome B) : Outcome B :=
  match o with
  | Ok a => k a
  | Raise e => Raise e
  end.

(** Such a computation inside a handler or a function of the app. *)
Definition lift {A} (o : Outcome A) : M A := fun w => (o, w).

Declare Scope monad_scope.
Delimit Scope monad_scope with monad.
Notation "x <- m ;; k" := (bind m (fun x => k))
  (at level 61, m at next level, right associativity) : monad_scope.
Notation "m ;;; k" := (bind m (fun _ => k))
  (at level 61, right associativity) : monad_scope.
Notation "x <~ o ;; k" := (obind o (fun x => k))
  (at level 61, o at next level, right associativity) : monad_scope.
Local Open Scope monad_scope.

Definition emit (e : Event) : M unit :=
  fun w => (Ok tt, {| session := session w; log := log w ++ [e] |}).

Definition get_session : M SessionState := fun w => (Ok (session w), w).

Definition put_session (s : SessionState) : M unit :=
  fun w => (Ok tt, {| session := s; log := log w |}).

Definition set_summary_result (v : option str) : M unit :=
  s <- get_session ;;
  put_session {| summary_result := v; extracted_text := extracted_text s;
                 doc_category := doc_category s;
                 failover_active := failover_active s |}.

Definition set_extracted_text (v : option str) : M unit :=
  s <- get_session ;;
  put_session {| summary_result := summary_result s; extracted_text := v;
                 doc_category := doc_category s;
                 failover_active := failover_active s |}.

Definition set_doc_category (v : str) : M unit :=
  s <- get_session ;;
  put_session {| summary_result := summary_result s;
                 extracted_text := extracted_text s;
                 doc_category := v;
                 failover_active := failover_active s |}.

Definition set_failover_active (v : bool) : M unit :=
  s <- get_session ;;
  put_session {| summary_result := summary_result s;
                 extracted_text := extracted_text s;
                 doc_category := doc_category s;
                 failover_active := v |}.

(** [st.toast(msg, icon=icon)]. *)
Definition toast (msg icon : str) : M unit := emit (Toast msg icon).

(** [images[0]]. *)
Definition index0 {A} (l : list A) : Outcome A :=
  match l with
  | x :: _ => Ok x
  | [] => Raise (lit "list index out of range")
  end.

(* ================================================================== *)
(** ** The functions of app.py *)
(* ================================================================== *)

(** (name, client, model_id), as in the [sequence] lists. *)
Definition Descriptor : Type := str * Client * str.

Definition desc_name (d : Descriptor) : str := fst (fst d).
Definition desc_client (d : Descriptor) : Client := snd (fst d).
Definition desc_model (d : Descriptor) : str := snd d.

Definition pdf_mime : str := lit "application/pdf".
Definition llama_scout : str := lit "meta-llama/llama-4-scout-17b-16e-instruct".

(** Icons and marks of the source that are not ASCII, by code point. *)
Definition icon_arrows : str := [128260%N].            (* U+1F504 *)
Definition icon_robot : str := [129302%N].             (* U+1F916 *)
Definition icon_folder : str := [128193%N].            (* U+1F4C1 *)
Definition mark_warning : str := [9888%N; 65039%N].    (* U+26A0 U+FE0F *)
Definition mark_siren : str := [128680%N].             (* U+1F6A8 *)
Definition mark_cross : str := [10060%N].              (* U+274C *)
Definition mark_open_folder : str := [128194%N].       (* U+1F4C2 *)
Definition en_dash : str := [8211%N].                  (* U+2013 *)
Definition newline : N := 10%N.

Definition encode_image (image_bytes : list N) : str := b64encode image_bytes.

(** The f-string [data:image/jpeg;base64,{base64_img}]. *)
Definition data_url (base64_img : str) : str :=
  lit "data:image/jpeg;base64," ++ base64_img.

Definition routing_prompt : str :=
  lit "Look at this document. Is it a clean printed form (OCR) or is it handwritten/complex/messy (VISION)? Reply with ONLY the word OCR or VISION.".

Definition routing_request (model_id base64_img : str) : Request :=
  {| req_model := model_id; req_text := routing_prompt;
     req_image_url := Some (data_url base64_img);
     req_max_tokens := Some 5%N |}.

Definition transcription_prompt : str :=
  lit "Transcribe all text from this image perfectly. Match language script (Hindi/English). Fix handwriting errors.".

Definition vision_request (model_id base64_img : str) : Request :=
  {| req_model := model_id; req_text := transcription_prompt;
     req_image_url := Some (data_url base64_img);
     req_max_tokens := None |}.

Definition vision_sentinel : str :=
  mark_cross ++ lit " All transcription providers failed.".

Definition vision_failed_notice (name : str) : str :=
  mark_siren ++ lit " " ++ name ++ lit " transcription failed. Trying fallback...".

Definition vision_sequence (provider : str) : list Descriptor :=
  if str_eqb provider (lit "GPT-4o") then
    [ (lit "GPT-4o", openai_client, lit "gpt-4o");
      (lit "Groq", groq_client, llama_scout) ]
  else
    [ (lit "Groq", groq_client, llama_scout);
      (lit "GPT-4o", openai_client, lit "gpt-4o") ].

Definition prompt_map : list (str * str) :=
  [ (lit "Short Summary", lit "Summarize briefly in 3-5 sentences.");
    (lit "Detailed Summary", lit "Provide a comprehensive and detailed summary.");
    (lit "Bullet Points", lit "Summarize using clear bullet points.") ].

(** [d.get(k, default)]. *)
Fixpoint dict_get (d : list (str * str)) (k default : str) : str :=
  match d with
  | [] => default
  | (k', v) :: rest => if str_eqb k k' then v else dict_get rest k default
  end.

Definition summarize_prompt (text summary_type language : str) : str :=
  let instruction := dict_get prompt_map summary_type summary_type in
  lit "Process this doc in " ++ language ++ lit ". Instruction: " ++ instruction
  ++ [newline; newline] ++ lit "Content: " ++ text.

Definition summarize_request (model_id prompt : str) : Request :=
  {| req_model := model_id; req_text := prompt;
     req_image_url := None; req_max_tokens := None |}.

Definition summarize_sentinel : str :=
  mark_cross ++ lit " All AI providers failed. Check API balance.".

Definition summarize_sequence (primary : str) : list Descriptor :=
  if str_eqb primary (lit "GPT-4o") then
    [ (lit "GPT-4o", openai_client, lit "gpt-4o");
      (lit "Groq", groq_client, lit "llama-3.3-70b-versatile") ]
  else
    [ (lit "Groq", groq_client, lit "llama-3.3-70b-versatile");
      (lit "GPT-4o", openai_client, lit "gpt-4o") ].

Definition categorize_prompt (text : str) : str :=
  lit "Categorize this document (e.g., Invoice, Resume, Legal, Report). Return ONLY the 1-2 word name."
  ++ [newline; newline] ++ lit "Text: " ++ firstn 1000 text.

Definition report_title : Paragraph :=
  {| para_text := lit "<b>Uchiha AI " ++ en_dash ++ lit " Intelligence Report</b>";
     para_style := Title |}.

Definition report_spacer : Paragraph :=
  {| para_text := lit "<br/>"; para_style := Normal |}.

(** [line.replace('&','&amp;').replace('<','&lt;').replace('>','&gt;')]. *)
Definition clean_line (line : str) : str :=
  replace 62%N (lit "&gt;")
    (replace 60%N (lit "&lt;")
       (replace 38%N (lit "&amp;") line)).

(** The list [story] of [generate_pdf] when [doc.build] is reached: the two
    initial paragraphs, then the appends of the loop over the lines. *)
Definition story (summary_text : str) : list Paragraph :=
  fold_left
    (fun story line =>
       if nonempty (strip line)
       then story ++ [ {| para_text := clean_line line; para_style := Normal |} ]
       else story)
    (split newline summary_text)
    [report_title; report_spacer].

Section App.

Variable env : Env.

(** A remote model call, recorded in the log. *)
Definition remote (c : Client) (r : Request) : M str :=
  emit (Remote c r) ;;; lift (chat env c r).

(** The image preparation of the router: first page of a PDF or the opened
    image, shrunk to 400 by 400, saved as JPEG, base64-encoded. *)
Definition routing_image (file : UploadedFile) : Outcome str :=
  img <~ (if str_eqb (file_type file) pdf_mime then
            images <~ convert_from_bytes env (file_value file) ;;
            index0 images
          else Image_open env (file_value file)) ;;
  img <~ thumbnail env img (400%N, 400%N) ;;
  buf <~ save_jpeg env img ;;
  Ok (encode_image buf).

Definition get_routing_decision (file : UploadedFile) : M str :=
  emit (Call Fget_routing_decision) ;;;
  try_except
    (base64_img <- lift (routing_image file) ;;
     try_except
       (content <- remote openai_client
                     (routing_request (lit "gpt-4o-mini") base64_img) ;;
        ret (upper (unicode_upper env) (strip content)))
       (fun _ =>
          toast (mark_warning ++ lit " GPT failover: Switching to Groq")
                icon_arrows ;;;
          content <- remote groq_client
                       (routing_request llama_scout base64_img) ;;
          ret (upper (unicode_upper env) (strip content))))
    (fun _ => ret (lit "OCR")).

(** The [for img in images] loop of the standard path, [text] being the
    accumulator. *)
Fixpoint ocr_pages (images : list (Image env)) (text : str) : Outcome str :=
  match images with
  | [] => Ok text
  | img :: rest =>
      page <~ image_to_string env img ;;
      ocr_pages rest (text ++ page ++ [newline])
  end.

(** The [try] body of the standard path. *)
Definition standard_text (file : UploadedFile) : Outcome str :=
  if str_eqb (file_type file) pdf_mime then
    images <~ convert_from_bytes env (file_value file) ;;
    ocr_pages images []
  else
    image <~ Image_open env (file_value file) ;;
    image_to_string env image.

Definition extract_text_standard (file : UploadedFile) : M str :=
  emit (Call Fextract_text_standard) ;;;
  try_except
    (lift (standard_text file))
    (fun e => ret (lit "OCR Error: " ++ e)).

(** The [for name, client, model_id in sequence] loop of the vision path:
    the first provider that answers returns; a failure is toasted and the
    loop continues. *)
Fixpoint vision_loop (sequence : list Descriptor) (base64_img : str) : M str :=
  match sequence with
  | [] => ret vision_sentinel
  | (name, client, model_id) :: rest =>
      try_except
        (remote client (vision_request model_id base64_img))
        (fun _ =>
           toast (vision_failed_notice name) icon_arrows ;;;
           vision_loop rest base64_img)
  end.

(** The image the vision path sends: the first page of a PDF saved as JPEG,
    or the uploaded bytes as they are, base64-encoded. *)
Definition vision_image (file : UploadedFile) : Outcome str :=
  img_bytes <~ (if str_eqb (file_type file) pdf_mime then
                  images <~ convert_from_bytes env (file_value file) ;;
                  img <~ index0 images ;;
                  save_jpeg env img
                else Ok (file_value file)) ;;
  Ok (encode_image img_bytes).

Definition extract_text_vision (file : UploadedFile) (provider : str) : M str :=
  emit (Call Fextract_text_vision) ;;;
  try_except
    (base64_img <- lift (vision_image file) ;;
     vision_loop (vision_sequence provider) base64_img)
    (fun e => ret (lit "Logic Error: " ++ e)).

Definition categorize_document (text primary : str) : M str :=
  emit (Call Fcategorize_document) ;;;
  let client :=
    if str_eqb primary (lit "GPT-4o") then openai_client else groq_client in
  let model :=
    if str_eqb primary (lit "GPT-4o") then lit "gpt-4o-mini"
    else lit "llama-3.1-8b-instant" in
  try_except
    (content <- remote client
                  {| req_model := model; req_text := categorize_prompt text;
                     req_image_url := None; req_max_tokens := Some 10%N |} ;;
     ret (replace 32%N (lit "_") (strip content)))
    (fun _ => ret (lit "Document")).

(** The [for i, (name, client, model_id) in enumerate(sequence)] loop of
    [summarize_text], from index [i] on. *)
Fixpoint summarize_loop (i : nat) (sequence : list Descriptor) (prompt : str)
  : M str :=
  match sequence with
  | [] => ret summarize_sentinel
  | (name, client, model_id) :: rest =>
      try_except
        (remote client (summarize_request model_id prompt))
        (fun _ =>
           (if Nat.eqb i 0 then set_failover_active true else ret tt) ;;;
           summarize_loop (S i) rest prompt)
  end.

Definition summarize_text (text summary_type primary language : str) : M str :=
  emit (Call Fsummarize_text) ;;;
  summarize_loop 0 (summarize_sequence primary)
                 (summarize_prompt text summary_type language).

Definition generate_pdf (summary_text : str) : M (list N) :=
  emit (Call Fgenerate_pdf) ;;;
  lift (doc_build env (story summary_text)).

(* ---------------------------------------------------------------- *)
(** *** The button handlers of the script *)

(** The body of the "Process Document" button. *)
Definition process_document (uploaded_file : UploadedFile) (use_auto : bool)
    (scanning_mode primary_provider : str) : M unit :=
  set_summary_result None ;;;
  (if use_auto then
     decision <- get_routing_decision uploaded_file ;;
     toast (lit "AI Router selected: " ++ decision ++ lit " mode") icon_robot ;;;
     if str_eqb decision (lit "VISION") then
       t <- extract_text_vision uploaded_file primary_provider ;;
       set_extracted_text (Some t)
     else
       t <- extract_text_standard uploaded_file ;;
       set_extracted_text (Some t)
   else
     if contains (lit "AI Vision") scanning_mode then
       t <- extract_text_vision uploaded_file primary_provider ;;
       set_extracted_text (Some t)
     else
       t <- extract_text_standard uploaded_file ;;
       set_extracted_text (Some t)) ;;;
  s <- get_session ;;
  match extracted_text s with
  | Some text =>
      if nonempty text then
        c <- categorize_document text primary_provider ;;
        set_doc_category c ;;;
        toast (mark_open_folder ++ lit " Detected as: " ++ c) icon_folder
      else ret tt
  | None => ret tt
  end.

(** The body of the "Summarize Now" button, with the conditions under which
    the script shows it. *)
Definition summarize_now (summary_type primary_provider target_language : str)
  : M unit :=
  s <- get_session ;;
  match extracted_text s with
  | Some text =>
      if nonempty text && negb (contains (lit "Customized Prompt") summary_type)
      then
        set_failover_active false ;;;
        r <- summarize_text text summary_type primary_provider target_language ;;
        set_summary_result (Some r)
      else ret tt
  | None => ret tt
  end.

(** The body of the "Send Instructions" button, with the conditions under
    which the script shows it. *)
Definition send_instructions
    (summary_type user_input primary_provider target_language : str) : M unit :=
  s <- get_session ;;
  match extracted_text s with
  | Some text =>
      if nonempty text && contains (lit "Customized Prompt") summary_type
         && nonempty user_input
      then
        set_failover_active false ;;;
        r <- summarize_text text user_input primary_provider target_language ;;
        set_summary_result (Some r)
      else ret tt
  | None => ret tt
  end.

End App.

(* ================================================================== *)
(** ** Vocabulary of the statements *)
(* ================================================================== *)

(** The world with [evs] appended to its log. *)
Definition logged (w : World) (evs : list Event) : World :=
  {| session := session w; log := log w ++ evs |}.

(** The world with [failover_active] set to [b]. *)
Definition flagged (w : World) (b : bool) : World :=
  {| session := {| summary_result := summary_result (session w);
                   extracted_text := extracted_text (session w);
                   doc_category := doc_category (session w);
                   failover_active := b |};
     log := log w |}.

Definition Fn_eqb (f g : Fn) : bool :=
  match f, g with
  | Fget_routing_decision, Fget_routing_decision
  | Fextract_text_standard, Fextract_text_standard
  | Fextract_text_vision, Fextract_text_vision
  | Fcategorize_document, Fcategorize_document
  | Fsummarize_text, Fsummarize_text
  | Fgenerate_pdf, Fgenerate_pdf => true
  | _, _ => false
  end.

Definition is_call (f : Fn) (e : Event) : bool :=
  match e with
  | Call g => Fn_eqb f g
  | _ => false
  end.

Definition is_remote (e : Event) : bool :=
  match e with
  | Remote _ _ => true
  | _ => false
  end.

(** How many times [f] was entered, and how many remote calls were made. *)
Definition call_count (f : Fn) (l : list Event) : nat :=
  List.length (filter (is_call f) l).

Definition remote_count (l : list Event) : nat :=
  List.length (filter is_remote l).

(** Events that are not entries into a function of the app. *)
Definition no_entry (evs : list Event) : Prop :=
  Forall (fun e => match e with Call _ => False | _ => True end) evs.

(** [m] is one invocation of [f]: from any world it returns the same value
    without raising, leaves the session alone, and logs its entry followed
    by events that are not entries. *)
Definition performs {A} (m : M A) (f : Fn) : Prop :=
  exists r, forall w, exists evs,
    m w = (Ok r, logged w (Call f :: evs)) /\ no_entry evs.

(** [m] run from [w] returns [r] in world [w'], having logged [evs] and
    left [failover_active] as it was. *)
Definition step {A} (m : M A) (w : World) (r : A) (evs : list Event)
    (w' : World) : Prop :=
  m w = (Ok r, w')
  /\ log w' = log w ++ evs
  /\ failover_active (session w') = failover_active (session w).

(** The extraction function a dispatch decision leads to. *)
Definition path_of (vision : bool) : Fn :=
  if vision then Fextract_text_vision else Fextract_text_standard.

Definition failed {A} (o : Outcome A) : bool :=
  match o with
  | Ok _ => false
  | Raise _ => true
  end.

(** The outcome of the call [summarize_text] makes to a descriptor. *)
Definition summarize_attempt (env : Env) (d : Descriptor) (prompt : str)
  : Outcome str :=
  chat env (desc_client d) (summarize_request (desc_model d) prompt).

(** Whether the primary attempt of a summarization fails. *)
Definition primary_failed (env : Env) (primary prompt : str) : bool :=
  match summarize_sequence primary with
  | d :: _ => failed (summarize_attempt env d prompt)
  | [] => false
  end.

(** The outcome of the call the vision path makes to a descriptor. *)
Definition vision_attempt (env : Env) (d : Descriptor) (base64_img : str)
  : Outcome str :=
  chat env (desc_client d) (vision_request (desc_model d) base64_img).

(** The two options of the "Manual Scanning Strategy" radio. *)
Definition mode_standard : str := lit "Standard OCR (Printed/Fast)".
Definition mode_vision : str := lit "AI Vision (Handwritten/Messy)".

(** Character-wise markup escaping. *)
Definition escape_char (c : N) : str :=
  if (c =? 38)%N then lit "&amp;"
  else if (c =? 60)%N then lit "&lt;"
  else if (c =? 62)%N then lit "&gt;"
  else [c].

Definition escape (line : str) : str := flat_map escape_char line.

Definition paragraph_of (line : str) : Paragraph :=
  {| para_text := escape line; para_style := Normal |}.

(** A line that [line.strip()] leaves non-empty. *)
Definition nonblank (line : str) : bool := nonempty (strip line).

(* ---------------------------------------------------------------- *)
(** *** Stub environments for concrete runs *)

(** Images are page numbers; PDFs decode to [pages]; [ocr] is the local
    recognition; the remote providers answer as [answer] says. *)
Definition stub_env (answer : Client -> Request -> Outcome str)
    (pages : list N) (ocr : N -> Outcome str) : Env :=
  {| Image := N;
     chat := answer;
     convert_from_bytes := fun _ => Ok pages;
     Image_open := fun _ => Ok 0%N;
     thumbnail := fun img _ => Ok img;
     save_jpeg := fun img => Ok [img];
     image_to_string := ocr;
     unicode_upper := fun c => [c];
     doc_build := fun _ => Ok [] |}.

Definition all_answer (reply : str) : Client -> Request -> Outcome str :=
  fun _ _ => Ok reply.

Definition all_fail : Client -> Request -> Outcome str :=
  fun _ _ => Raise (lit "Connection error.").

(** Only the named client answers. *)
Definition only_answers (who : Client) (reply : str)
  : Client -> Request -> Outcome str :=
  fun c _ =>
    match who, c with
    | openai_client, openai_client | groq_client, groq_client => Ok reply
    | _, _ => Raise (lit "Connection error.")
    end.

Definition png_file : UploadedFile :=
  {| file_type := lit "image/png"; file_value := [137; 80; 78; 71]%N |}.

Definition pdf_file : UploadedFile :=
  {| file_type := lit "application/pdf"; file_value := [37; 80; 68; 70]%N |}.

Definition invoice_text : str :=
  lit "Invoice #123" ++ [newline] ++ lit "Total: $50".

Definition gpt4o : Descriptor := (lit "GPT-4o", openai_client, lit "gpt-4o").
Definition groq_llama70 : Descriptor :=
  (lit "Groq", groq_client, lit "llama-3.3-70b-versatile").
Definition groq_scout : Descriptor := (lit "Groq", groq_client, llama_scout).

(** Primary (OpenAI) up; primary down and Groq up; everything down. *)
Definition env_primary_up : Env :=
  stub_env (only_answers openai_client (lit "A $50 invoice.")) [] (fun _ => Ok []).
Definition env_primary_down : Env :=
  stub_env (only_answers groq_client (lit "A $50 invoice.")) [] (fun _ => Ok []).
Definition env_all_down : Env := stub_env all_fail [] (fun _ => Ok []).

(** OpenAI down, Groq transcribes. *)
Definition env_vision_failover : Env :=
  stub_env (only_answers groq_client invoice_text) [] (fun _ => Ok []).

(** A router that answers with something else than a label. *)
Definition env_router_chatty : Env :=
  stub_env (all_answer (lit "Handwritten")) [] (fun _ => Ok []).
Definition env_router_silent : Env :=
  stub_env (all_answer []) [] (fun _ => Ok []).
Definition env_router_vision : Env :=
  stub_env (all_answer (lit " vision ")) [] (fun _ => Ok []).

(** A two-page PDF read locally, no provider reachable. *)
Definition two_page_ocr (page : N) : Outcome str :=
  if (page =? 1)%N then Ok (lit "Page one") else Ok (lit "Page two").
Definition env_two_pages : Env := stub_env all_fail [1%N; 2%N] two_page_ocr.

(** The per-line paragraphs as the specification words them: one per
    non-empty line. *)
Definition paragraphs_per_nonempty_line (summary_text : str) : list Paragraph :=
  map paragraph_of (filter nonempty (split newline summary_text)).

(** The end-to-end scenario: local recognition reads the invoice, the
    categorization model (gpt-4o-mini) answers, the primary summarization
    model (gpt-4o) is down and Groq summarizes. *)
Definition scenario_answer (c : Client) (r : Request) : Outcome str :=
  match c with
  | openai_client =>
      if str_eqb (req_model r) (lit "gpt-4o-mini") then Ok (lit "Invoice")
      else Raise (lit "insufficient_quota")
  | groq_client => Ok (lit "A $50 invoice.")
  end.
Definition env_scenario : Env :=
  stub_env scenario_answer [] (fun _ => Ok invoice_text).

Definition fresh_world : World := {| session := initial_session; log := [] |}.

(** A session that holds an extracted text. *)
Definition world_with_text (text : str) (flag : bool) : World :=
  {| session := {| summary_result := None; extracted_text := Some text;
                   doc_category := lit "Invoice"; failover_active := flag |};
     log := [] |}.

(* ================================================================== *)
(** ** What the script shows after the handlers *)
(* ================================================================== *)

(** Whether the failover warning is displayed: the flag is looked at inside
    the block the script shows when there is an extracted text. *)
Definition failover_warning_shown (s : SessionState) : bool :=
  match extracted_text s with
  | Some text => nonempty text && failover_active s
  | None => false
  end.

(** The f-string [{doc_category}_Summary.pdf]. *)
Definition download_filename (s : SessionState) : str :=
  doc_category s ++ lit "_Summary.pdf".

(** The result block: when there is a summary, the report built from it and
    the file name of the download button. *)
Definition result_block (env : Env) : M (option (list N * str)) :=
  s <- get_session ;;
  match summary_result s with
  | Some r =>
      if nonempty r then
        pdf <- generate_pdf env r ;;
        ret (Some (pdf, download_filename s))
      else ret None
  | None => ret None
  end.

(* ---------------------------------------------------------------- *)
(** *** Vocabulary of the further statements *)

Definition with_summary_result (w : World) (v : option str) : World :=
  {| session := {| summary_result := v;
                   extracted_text := extracted_text (session w);
                   doc_category := doc_category (session w);
                   failover_active := failover_active (session w) |};
     log := log w |}.

Definition with_extracted_text (w : World) (v : option str) : World :=
  {| session := {| summary_result := summary_result (session w);
                   extracted_text := v;
                   doc_category := doc_category (session w);
                   failover_active := failover_active (session w) |};
     log := log w |}.

Definition with_doc_category (w : World) (v : str) : World :=
  {| session := {| summary_result := summary_result (session w);
                   extracted_text := extracted_text (session w);
                   doc_category := v;
                   failover_active := failover_active (session w) |};
     log := log w |}.

(** The client and the request of the categorization call. *)
Definition categorize_client (primary : str) : Client :=
  if str_eqb primary (lit "GPT-4o") then openai_client else groq_client.

Definition categorize_request (text primary : str) : Request :=
  {| req_model := if str_eqb primary (lit "GPT-4o") then lit "gpt-4o-mini"
                  else lit "llama-3.1-8b-instant";
     req_text := categorize_prompt text;
     req_image_url := None;
     req_max_tokens := Some 10%N |}.

(** The label [categorize_document] returns. *)
Definition category_label (env : Env) (text primary : str) : str :=
  match chat env (categorize_client primary) (categorize_request text primary) with
  | Ok reply => replace 32%N (lit "_") (strip reply)
  | Raise _ => lit "Document"
  end.

(** An event that carries no image to a provider. *)
Definition sends_no_image (e : Event) : Prop :=
  match e with
  | Remote _ r => req_image_url r = None
  | _ => True
  end.

(** The text a run of an extraction function returns. *)
Definition returned (o : Outcome str * World) : str :=
  match fst o with
  | Ok text => text
  | Raise _ => []
  end.

(** A long text, and the same text with another tail. *)
Definition long_text_a : str := repeat 65%N 1000 ++ lit " first tail".
Definition long_text_b : str := repeat 65%N 1000 ++ lit " second tail".

(** A category model that answers with two words. *)
Definition env_two_words : Env :=
  stub_env (all_answer (lit " Legal Report ")) [] (fun _ => Ok invoice_text).

(** The world after the categorization post-step of "Process Document", run
    from a world whose extracted text is [text]. *)
Definition categorized (env : Env) (primary text : str) (w : World) : World :=
  if nonempty text then
    logged
      (with_doc_category
         (logged w [Call Fcategorize_document;
                    Remote (categorize_client primary)
                      (categorize_request text primary)])
         (category_label env text primary))
      [Toast (mark_open_folder ++ lit " Detected as: "
              ++ category_label env text primary) icon_folder]
  else w.

(** The extraction function of a path, as a computation. *)
Definition extraction (env : Env) (file : UploadedFile) (primary : str)
    (vision : bool) : M str :=
  if vision then extract_text_vision env file primary
  else extract_text_standard env file.

(** A PDF whose pages cannot be decoded, and no provider reachable. *)
Definition env_corrupt_pdf : Env :=
  {| Image := N;
     chat := all_fail;
     convert_from_bytes := fun _ => Raise (lit "Unable to get page count.");
     Image_open := fun _ => Raise (lit "cannot identify image file");
     thumbnail := fun img _ => Ok img;
     save_jpeg := fun img => Ok [img];
     image_to_string := fun _ => Ok [];
     unicode_upper := fun c => [c];
     doc_build := fun _ => Ok [] |}.

(** Local recognition reads the invoice; no provider reachable. *)
Definition env_offline : Env := stub_env all_fail [] (fun _ => Ok invoice_text).

(** A two-page PDF whose pages save as JPEG, with Groq transcribing. *)
Definition env_two_page_vision : Env :=
  stub_env (only_answers groq_client invoice_text) [1%N; 2%N] two_page_ocr.

(** The environment [env] with a PDF decoder that yields [pages]. *)
Definition with_pages (env : Env) (pages : list (Image env)) : Env :=
  {| Image := Image env;
     chat := chat env;
     convert_from_bytes := fun _ => Ok pages;
     Image_open := Image_open env;
     thumbnail := thumbnail env;
     save_jpeg := save_jpeg env;
     image_to_string := image_to_string env;
     unicode_upper := unicode_upper env;
     doc_build := doc_build env |}.

(* ================================================================== *)
(** ** The primary attempt, and replies without text *)
(* ================================================================== *)

(** The first call [summarize_text] makes, written out from the two
    [sequence] literals: to OpenAI with gpt-4o when the primary is GPT-4o,
    to Groq with llama-3.3-70b-versatile for any other value. *)
Definition primary_attempt (env : Env) (primary prompt : str) : Outcome str :=
  if str_eqb primary (lit "GPT-4o") then
    chat env openai_client (summarize_request (lit "gpt-4o") prompt)
  else
    chat env groq_client
      (summarize_request (lit "llama-3.3-70b-versatile") prompt).

(** [message.content] as the client library types it: a text, or [None].
    [content c r] stands for [c.chat.completions.create] applied to [r] and
    projected by [.choices[0].message.content], [None] included. *)
Definition Content : Type := Client -> Request -> Outcome (option str).

(** The replies of [env], none of which lacks its text. *)
Definition text_content (env : Env) : Content :=
  fun c r =>
    match chat env c r with
    | Ok text => Ok (Some text)
    | Raise e => Raise e
    end.

(** A remote model call whose content may be [None], recorded in the log. *)
Definition remote_content (content : Content) (c : Client) (r : Request)
  : M (option str) :=
  emit (Remote c r) ;;; lift (content c r).

(** The loop of the vision path with the content returned unchecked, as
    [return response.choices[0].message.content] does: a provider whose
    content is [None] ends the loop with [None]. *)
Fixpoint vision_loop_content (content : Content) (sequence : list Descriptor)
    (base64_img : str) : M (option str) :=
  match sequence with
  | [] => ret (Some vision_sentinel)
  | (name, client, model_id) :: rest =>
      try_except
        (remote_content content client (vision_request model_id base64_img))
        (fun _ =>
           toast (vision_failed_notice name) icon_arrows ;;;
           vision_loop_content content rest base64_img)
  end.

(** [extract_text_vision] with the content returned unchecked: the value is
    a string, or [None]. *)
Definition extract_text_vision_content (env : Env) (content : Content)
    (file : UploadedFile) (provider : str) : M (option str) :=
  emit (Call Fextract_text_vision) ;;;
  try_except
    (base64_img <- lift (vision_image env file) ;;
     vision_loop_content content (vision_sequence provider) base64_img)
    (fun e => ret (Some (lit "Logic Error: " ++ e))).


(* ================================================================== *)
(** ** Basic facts *)
(* ================================================================== *)

Arguments lit : simpl never.
Arguments summarize_prompt : simpl never.
Arguments summarize_request : simpl never.
Arguments vision_request : simpl never.
Arguments routing_request : simpl never.

Lemma str_eqb_refl (a : str) : str_eqb a a = true.
Proof.
  induction a as [|x a IH]; simpl; [reflexivity|].
  now rewrite N.eqb_refl, IH.
Qed.

Lemma str_eqb_eq (a b : str) : str_eqb a b = true <-> a = b.
Proof.
  split; [|intros ->; apply str_eqb_refl].
  revert b; induction a as [|x a IH]; intros [|y b]; simpl; try discriminate.
  - reflexivity.
  - intros H. apply andb_true_iff in H as [Hx Hr].
    apply N.eqb_eq in Hx. apply IH in Hr. now subst.
Qed.

Lemma logged_nil (w : World) : logged w [] = w.
Proof. destruct w; unfold logged; simpl. now rewrite app_nil_r. Qed.

Lemma logged_logged (w : World) (a b : list Event) :
  logged (logged w a) b = logged w (a ++ b).
Proof. unfold logged; simpl. now rewrite app_assoc. Qed.

Lemma flagged_logged (w : World) (evs : list Event) (b : bool) :
  flagged (logged w evs) b = logged (flagged w b) evs.
Proof. reflexivity. Qed.

Lemma call_count_app (f : Fn) (a b : list Event) :
  call_count f (a ++ b) = call_count f a + call_count f b.
Proof. unfold call_count. now rewrite filter_app, length_app. Qed.

Lemma remote_count_app (a b : list Event) :
  remote_count (a ++ b) = remote_count a + remote_count b.
Proof. unfold remote_count. now rewrite filter_app, length_app. Qed.

(** One step of a remote call. *)
Lemma remote_run (env : Env) (c : Client) (r : Request) (w : World) :
  remote env c r w = (chat env c r, logged w [Remote c r]).
Proof. reflexivity. Qed.

(* ================================================================== *)
(** ** The summarization failover loop *)
(* ================================================================== *)

Section SummarizeLoop.

Variable env : Env.

(** A descriptor that answers ends the loop with its answer. *)
Lemma summarize_loop_answer (i : nat) (d : Descriptor) (rest : list Descriptor)
    (prompt out : str) (w : World) :
  summarize_attempt env d prompt = Ok out ->
  summarize_loop env i (d :: rest) prompt w
  = (Ok out,
     logged w [Remote (desc_client d) (summarize_request (desc_model d) prompt)]).
Proof.
  destruct d as [[name client] model_id].
  unfold summarize_attempt, desc_client, desc_model. simpl.
  intros H. unfold try_except. rewrite remote_run, H. reflexivity.
Qed.

(** A descriptor that fails hands over to the rest of the sequence; the
    flag is set when the descriptor was the first. *)
Lemma summarize_loop_failure (i : nat) (d : Descriptor) (rest : list Descriptor)
    (prompt e : str) (w : World) :
  summarize_attempt env d prompt = Raise e ->
  summarize_loop env i (d :: rest) prompt w
  = summarize_loop env (S i) rest prompt
      (logged (if Nat.eqb i 0 then flagged w true else w)
         [Remote (desc_client d) (summarize_request (desc_model d) prompt)]).
Proof.
  destruct d as [[name client] model_id].
  unfold summarize_attempt, desc_client, desc_model. simpl.
  intros H. unfold try_except. rewrite remote_run, H.
  unfold bind at 1. destruct i; reflexivity.
Qed.

Lemma summarize_loop_nil (i : nat) (prompt : str) (w : World) :
  summarize_loop env i [] prompt w = (Ok summarize_sentinel, w).
Proof. reflexivity. Qed.

Lemma summarize_text_unfold (text summary_type primary language : str)
    (w : World) :
  summarize_text env text summary_type primary language w
  = summarize_loop env 0 (summarize_sequence primary)
      (summarize_prompt text summary_type language)
      (logged w [Call Fsummarize_text]).
Proof. reflexivity. Qed.

End SummarizeLoop.

Lemma summarize_sequence_two (primary : str) :
  exists d1 d2, summarize_sequence primary = [d1; d2].
Proof.
  unfold summarize_sequence.
  destruct (str_eqb primary (lit "GPT-4o")); eauto.
Qed.

(* ================================================================== *)
(** ** Summarization: the three outcomes of a two-element sequence *)
(* ================================================================== *)

(** C1.  When the call to the first descriptor of the summarization sequence
    answers, [summarize_text] returns that answer; the only remote call made
    is the one to the first descriptor, so the second is never invoked; the
    session, and with it a [failover_active] that was false, is unchanged;
    and the whole outcome is the same under any other environment whose
    first descriptor gives the same answer, whatever its second provider
    does. *)
Theorem summarize_first_answer_wins
    (env : Env) (text summary_type primary language : str) (w : World)
    (d1 d2 : Descriptor) (out : str) :
  summarize_sequence primary = [d1; d2] ->
  summarize_attempt env d1 (summarize_prompt text summary_type language) = Ok out ->
  summarize_text env text summary_type primary language w
  = (Ok out,
     logged w [Call Fsummarize_text;
               Remote (desc_client d1)
                 (summarize_request (desc_model d1)
                    (summarize_prompt text summary_type language))])
  /\ remote_count (log (snd (summarize_text env text summary_type primary language w)))
     = remote_count (log w) + 1
  /\ (failover_active (session w) = false ->
      failover_active
        (session (snd (summarize_text env text summary_type primary language w)))
      = false)
  /\ (forall env' : Env,
        summarize_attempt env' d1 (summarize_prompt text summary_type language)
        = Ok out ->
        summarize_text env' text summary_type primary language w
        = summarize_text env text summary_type primary language w).
Proof.
  intros Hseq Hfirst.
  assert (Hrun : forall env0 : Env,
             summarize_attempt env0 d1 (summarize_prompt text summary_type language)
             = Ok out ->
             summarize_text env0 text summary_type primary language w
             = (Ok out,
                logged w [Call Fsummarize_text;
                          Remote (desc_client d1)
                            (summarize_request (desc_model d1)
                               (summarize_prompt text summary_type language))])).
  { intros env0 H0. rewrite summarize_text_unfold, Hseq.
    rewrite (summarize_loop_answer env0 0 d1 [d2] _ out _ H0).
    now rewrite logged_logged. }
  rewrite (Hrun env Hfirst). simpl. repeat split.
  - rewrite remote_count_app. reflexivity.
  - auto.
  - intros env' H'. apply (Hrun env' H').
Qed.

(** C2.  When the call to the first descriptor fails and the call to the
    second answers, [summarize_text] returns the second answer as it is and
    [failover_active] is true afterwards. *)
Theorem summarize_second_answer
    (env : Env) (text summary_type primary language : str) (w : World)
    (d1 d2 : Descriptor) (e out : str) :
  summarize_sequence primary = [d1; d2] ->
  summarize_attempt env d1 (summarize_prompt text summary_type language) = Raise e ->
  summarize_attempt env d2 (summarize_prompt text summary_type language) = Ok out ->
  fst (summarize_text env text summary_type primary language w) = Ok out
  /\ failover_active
       (session (snd (summarize_text env text summary_type primary language w)))
     = true
  /\ snd (summarize_text env text summary_type primary language w)
     = logged (flagged w true)
         [Call Fsummarize_text;
          Remote (desc_client d1)
            (summarize_request (desc_model d1)
               (summarize_prompt text summary_type language));
          Remote (desc_client d2)
            (summarize_request (desc_model d2)
               (summarize_prompt text summary_type language))].
Proof.
  intros Hseq H1 H2.
  rewrite summarize_text_unfold, Hseq.
  rewrite (summarize_loop_failure env 0 d1 [d2] _ _ _ H1).
  rewrite (summarize_loop_answer env 1 d2 [] _ _ _ H2).
  simpl Nat.eqb. cbv iota.
  rewrite flagged_logged, !logged_logged. simpl. auto.
Qed.

(** C3.  When the calls to both descriptors fail, [summarize_text] does not
    raise: it returns the fixed all-providers-failed string, and
    [failover_active] is true afterwards. *)
Theorem summarize_all_failed
    (env : Env) (text summary_type primary language : str) (w : World)
    (d1 d2 : Descriptor) (e1 e2 : str) :
  summarize_sequence primary = [d1; d2] ->
  summarize_attempt env d1 (summarize_prompt text summary_type language) = Raise e1 ->
  summarize_attempt env d2 (summarize_prompt text summary_type language) = Raise e2 ->
  fst (summarize_text env text summary_type primary language w)
  = Ok summarize_sentinel
  /\ failover_active
       (session (snd (summarize_text env text summary_type primary language w)))
     = true.
Proof.
  intros Hseq H1 H2.
  rewrite summarize_text_unfold, Hseq.
  rewrite (summarize_loop_failure env 0 d1 [d2] _ _ _ H1).
  rewrite (summarize_loop_failure env 1 d2 [] _ _ _ H2).
  rewrite summarize_loop_nil. simpl. auto.
Qed.

Lemma summarize_first_answer_wins_witness :
  summarize_sequence (lit "GPT-4o") = [gpt4o; groq_llama70]
  /\ summarize_attempt env_primary_up gpt4o
       (summarize_prompt invoice_text (lit "Short Summary") (lit "English"))
     = Ok (lit "A $50 invoice.")
  /\ fst (summarize_text env_primary_up invoice_text (lit "Short Summary")
            (lit "GPT-4o") (lit "English") fresh_world)
     = Ok (lit "A $50 invoice.").
Proof.
  split; [reflexivity|]. split; [reflexivity|].
  exact (f_equal fst
           (proj1 (summarize_first_answer_wins env_primary_up invoice_text
                     (lit "Short Summary") (lit "GPT-4o") (lit "English")
                     fresh_world gpt4o groq_llama70 (lit "A $50 invoice.")
                     eq_refl eq_refl))).
Defined.

Lemma summarize_second_answer_witness :
  summarize_sequence (lit "GPT-4o") = [gpt4o; groq_llama70]
  /\ summarize_attempt env_primary_down gpt4o
       (summarize_prompt invoice_text (lit "Short Summary") (lit "English"))
     = Raise (lit "Connection error.")
  /\ summarize_attempt env_primary_down groq_llama70
       (summarize_prompt invoice_text (lit "Short Summary") (lit "English"))
     = Ok (lit "A $50 invoice.")
  /\ fst (summarize_text env_primary_down invoice_text (lit "Short Summary")
            (lit "GPT-4o") (lit "English") fresh_world)
     = Ok (lit "A $50 invoice.")
  /\ failover_active
       (session (snd (summarize_text env_primary_down invoice_text
                        (lit "Short Summary") (lit "GPT-4o") (lit "English")
                        fresh_world)))
     = true.
Proof.
  split; [reflexivity|]. split; [reflexivity|]. split; [reflexivity|].
  pose proof (summarize_second_answer env_primary_down invoice_text
                (lit "Short Summary") (lit "GPT-4o") (lit "English")
                fresh_world gpt4o groq_llama70 (lit "Connection error.")
                (lit "A $50 invoice.") eq_refl eq_refl eq_refl) as [H1 [H2 _]].
  split; [exact H1 | exact H2].
Defined.

Lemma summarize_all_failed_witness :
  summarize_sequence (lit "Groq") = [groq_llama70; gpt4o]
  /\ summarize_attempt env_all_down groq_llama70
       (summarize_prompt invoice_text (lit "Bullet Points") (lit "Hindi"))
     = Raise (lit "Connection error.")
  /\ summarize_attempt env_all_down gpt4o
       (summarize_prompt invoice_text (lit "Bullet Points") (lit "Hindi"))
     = Raise (lit "Connection error.")
  /\ fst (summarize_text env_all_down invoice_text (lit "Bullet Points")
            (lit "Groq") (lit "Hindi") fresh_world)
     = Ok summarize_sentinel
  /\ failover_active
       (session (snd (summarize_text env_all_down invoice_text
                        (lit "Bullet Points") (lit "Groq") (lit "Hindi")
                        fresh_world)))
     = true.
Proof.
  split; [reflexivity|]. split; [reflexivity|]. split; [reflexivity|].
  exact (summarize_all_failed env_all_down invoice_text (lit "Bullet Points")
           (lit "Groq") (lit "Hindi") fresh_world
           groq_llama70 gpt4o (lit "Connection error.")
           (lit "Connection error.") eq_refl eq_refl eq_refl).
Defined.

(* ================================================================== *)
(** ** Effects of the other functions *)
(* ================================================================== *)

Lemma no_entry_call_count (f : Fn) (evs : list Event) :
  no_entry evs -> call_count f evs = 0.
Proof.
  unfold call_count. induction 1 as [|e evs He _ IH]; [reflexivity|].
  simpl. destruct e; simpl; try exact IH. contradiction.
Qed.

Lemma no_entry_app (a b : list Event) :
  no_entry a -> no_entry b -> no_entry (a ++ b).
Proof. unfold no_entry. intros. apply Forall_app. now split. Qed.

Section Effects.

Variable env : Env.

Lemma vision_loop_answer (d : Descriptor) (rest : list Descriptor)
    (base64_img out : str) (w : World) :
  vision_attempt env d base64_img = Ok out ->
  vision_loop env (d :: rest) base64_img w
  = (Ok out,
     logged w [Remote (desc_client d) (vision_request (desc_model d) base64_img)]).
Proof.
  destruct d as [[name client] model_id].
  unfold vision_attempt, desc_client, desc_model. simpl.
  intros H. unfold try_except. rewrite remote_run, H. reflexivity.
Qed.

Lemma vision_loop_failure (d : Descriptor) (rest : list Descriptor)
    (base64_img e : str) (w : World) :
  vision_attempt env d base64_img = Raise e ->
  vision_loop env (d :: rest) base64_img w
  = vision_loop env rest base64_img
      (logged w [Remote (desc_client d) (vision_request (desc_model d) base64_img);
                 Toast (vision_failed_notice (desc_name d)) icon_arrows]).
Proof.
  destruct d as [[name client] model_id].
  unfold vision_attempt, desc_client, desc_model, desc_name. simpl.
  intros H. unfold try_except. rewrite remote_run, H.
  unfold bind at 1. unfold toast, emit. simpl.
  now rewrite <- app_assoc.
Qed.

(** The loop never raises and never touches the session. *)
Lemma vision_loop_total (sequence : list Descriptor) (base64_img : str) :
  exists out, forall w, exists evs,
    vision_loop env sequence base64_img w = (Ok out, logged w evs)
    /\ no_entry evs.
Proof.
  induction sequence as [|d rest IH].
  - exists vision_sentinel. intros w. exists []. simpl.
    rewrite logged_nil. split; [reflexivity | constructor].
  - destruct (vision_attempt env d base64_img) as [out|e] eqn:Hd.
    + exists out. intros w. eexists. split.
      * apply vision_loop_answer. exact Hd.
      * repeat constructor.
    + destruct IH as [out IH]. exists out. intros w.
      rewrite (vision_loop_failure d rest base64_img e w Hd).
      destruct (IH (logged w
                      [Remote (desc_client d)
                         (vision_request (desc_model d) base64_img);
                       Toast (vision_failed_notice (desc_name d)) icon_arrows]))
        as [evs [Hrun Hq]].
      eexists. split.
      * rewrite Hrun, logged_logged. reflexivity.
      * apply no_entry_app; [repeat constructor | exact Hq].
Qed.

Lemma extract_text_vision_unfold (file : UploadedFile) (provider : str)
    (w : World) :
  extract_text_vision env file provider w
  = match vision_image env file with
    | Ok base64_img =>
        vision_loop env (vision_sequence provider) base64_img
          (logged w [Call Fextract_text_vision])
    | Raise e =>
        (Ok (lit "Logic Error: " ++ e), logged w [Call Fextract_text_vision])
    end.
Proof.
  unfold extract_text_vision, bind, try_except, lift, emit. simpl.
  destruct (vision_image env file) as [b|e]; [|reflexivity].
  fold (logged w [Call Fextract_text_vision]).
  destruct (vision_loop_total (vision_sequence provider) b) as [out H].
  destruct (H (logged w [Call Fextract_text_vision])) as [evs [Hrun _]].
  now rewrite Hrun.
Qed.

Lemma extract_text_vision_performs (file : UploadedFile) (provider : str) :
  performs (extract_text_vision env file provider) Fextract_text_vision.
Proof.
  unfold performs.
  destruct (vision_image env file) as [b|e] eqn:Himg.
  - destruct (vision_loop_total (vision_sequence provider) b) as [out H].
    exists out. intros w. rewrite extract_text_vision_unfold, Himg.
    destruct (H (logged w [Call Fextract_text_vision])) as [evs [Hrun Hq]].
    exists evs. rewrite Hrun, logged_logged. split; [reflexivity | exact Hq].
  - exists (lit "Logic Error: " ++ e). intros w.
    rewrite extract_text_vision_unfold, Himg.
    exists []. split; [reflexivity | constructor].
Qed.

Lemma extract_text_standard_run (file : UploadedFile) (w : World) :
  extract_text_standard env file w
  = (Ok match standard_text env file with
        | Ok text => text
        | Raise e => lit "OCR Error: " ++ e
        end,
     logged w [Call Fextract_text_standard]).
Proof.
  unfold extract_text_standard, bind, try_except, lift, emit, ret. simpl.
  destruct (standard_text env file); reflexivity.
Qed.

Lemma extract_text_standard_performs (file : UploadedFile) :
  performs (extract_text_standard env file) Fextract_text_standard.
Proof.
  eexists. intros w. exists []. rewrite extract_text_standard_run.
  split; [reflexivity | constructor].
Qed.

Lemma get_routing_decision_run (file : UploadedFile) (w : World) :
  get_routing_decision env file w
  = match routing_image env file with
    | Raise _ => (Ok (lit "OCR"), logged w [Call Fget_routing_decision])
    | Ok b =>
        match chat env openai_client (routing_request (lit "gpt-4o-mini") b) with
        | Ok reply =>
            (Ok (upper (unicode_upper env) (strip reply)),
             logged w [Call Fget_routing_decision;
                       Remote openai_client
                         (routing_request (lit "gpt-4o-mini") b)])
        | Raise _ =>
            (Ok match chat env groq_client (routing_request llama_scout b) with
                | Ok reply => upper (unicode_upper env) (strip reply)
                | Raise _ => lit "OCR"
                end,
             logged w [Call Fget_routing_decision;
                       Remote openai_client
                         (routing_request (lit "gpt-4o-mini") b);
                       Toast (mark_warning ++ lit " GPT failover: Switching to Groq")
                             icon_arrows;
                       Remote groq_client (routing_request llama_scout b)])
        end
    end.
Proof.
  unfold get_routing_decision, bind, try_except, lift, emit, ret, remote, toast.
  simpl.
  destruct (routing_image env file) as [b|e]; [|reflexivity].
  destruct (chat env openai_client _) as [reply|e1].
  - unfold logged. simpl. now rewrite <- app_assoc.
  - destruct (chat env groq_client _) as [reply|e2];
      unfold logged; simpl; now rewrite <- !app_assoc.
Qed.

Lemma get_routing_decision_performs (file : UploadedFile) :
  performs (get_routing_decision env file) Fget_routing_decision.
Proof.
  unfold performs.
  destruct (routing_image env file) as [b|e] eqn:Himg.
  - destruct (chat env openai_client (routing_request (lit "gpt-4o-mini") b))
      as [reply|e1] eqn:H1.
    + eexists. intros w. eexists.
      rewrite get_routing_decision_run, Himg, H1.
      split; [reflexivity | repeat constructor].
    + eexists. intros w. eexists.
      rewrite get_routing_decision_run, Himg, H1.
      split; [reflexivity | repeat constructor].
  - eexists. intros w. exists [].
    rewrite get_routing_decision_run, Himg.
    split; [reflexivity | constructor].
Qed.

Lemma categorize_document_performs (text primary : str) :
  performs (categorize_document env text primary) Fcategorize_document.
Proof.
  unfold performs, categorize_document, bind, try_except, lift, emit, ret, remote.
  simpl.
  destruct (chat env _ _) as [reply|e].
  - eexists. intros w. eexists. split.
    + unfold logged. simpl. rewrite <- app_assoc. reflexivity.
    + repeat constructor.
  - eexists. intros w. eexists. split.
    + unfold logged. simpl. rewrite <- app_assoc. reflexivity.
    + repeat constructor.
Qed.

End Effects.

(* ================================================================== *)
(** ** Composition of steps, and the "Process Document" handler *)
(* ================================================================== *)

Lemma call_count_cons (f : Fn) (e : Event) (l : list Event) :
  call_count f (e :: l) = (if is_call f e then 1 else 0) + call_count f l.
Proof. unfold call_count. simpl. now destruct (is_call f e). Qed.

Lemma call_count_nil (f : Fn) : call_count f [] = 0.
Proof. reflexivity. Qed.

Ltac count_calls :=
  repeat (rewrite call_count_app || rewrite call_count_cons
          || rewrite call_count_nil);
  simpl.

Lemma step_bind {A B} (m : M A) (k : A -> M B) (w w1 w2 : World) (a : A) (b : B)
    (e1 e2 : list Event) :
  step m w a e1 w1 -> step (k a) w1 b e2 w2 ->
  step (bind m k) w b (e1 ++ e2) w2.
Proof.
  intros [Hm [Hl1 Hf1]] [Hk [Hl2 Hf2]]. unfold step, bind.
  rewrite Hm, Hk, Hl2, Hl1, Hf2, Hf1, app_assoc. auto.
Qed.

Lemma step_ret {A} (a : A) (w : World) : step (ret a) w a [] w.
Proof. unfold step, ret. now rewrite app_nil_r. Qed.

Lemma step_toast (msg icon : str) (w : World) :
  step (toast msg icon) w tt [Toast msg icon] (logged w [Toast msg icon]).
Proof. unfold step. auto. Qed.

Lemma step_performs {A} (m : M A) (f : Fn) :
  performs m f ->
  exists r, forall w, exists evs,
    step m w r (Call f :: evs) (logged w (Call f :: evs)) /\ no_entry evs.
Proof.
  intros [r H]. exists r. intros w. destruct (H w) as [evs [Hrun Hq]].
  exists evs. unfold step. auto.
Qed.

Lemma step_set_summary_result (v : option str) (w : World) :
  exists w', step (set_summary_result v) w tt [] w'
             /\ extracted_text (session w') = extracted_text (session w).
Proof.
  eexists. unfold step, set_summary_result, bind, get_session, put_session.
  simpl. rewrite app_nil_r. auto.
Qed.

Lemma step_set_extracted_text (v : option str) (w : World) :
  exists w', step (set_extracted_text v) w tt [] w'
             /\ extracted_text (session w') = v.
Proof.
  eexists. unfold step, set_extracted_text, bind, get_session, put_session.
  simpl. rewrite app_nil_r. auto.
Qed.

Lemma step_set_doc_category (v : str) (w : World) :
  exists w', step (set_doc_category v) w tt [] w'.
Proof.
  eexists. unfold step, set_doc_category, bind, get_session, put_session.
  simpl. rewrite app_nil_r. auto.
Qed.

Lemma step_get_session (w : World) : step get_session w (session w) [] w.
Proof. unfold step, get_session. now rewrite app_nil_r. Qed.

Section Dispatch.

Variable env : Env.

(** The extraction branch taken: one entry into the chosen path, none into
    the other, and the result stored as the extracted text. *)
Lemma extraction_step (file : UploadedFile) (primary : str) (vision : bool)
    (w : World) :
  exists w' evs,
    step (if vision then
            t <- extract_text_vision env file primary ;;
            set_extracted_text (Some t)
          else
            t <- extract_text_standard env file ;;
            set_extracted_text (Some t)) w tt
         (Call (path_of vision) :: evs) w'
    /\ no_entry evs
    /\ exists t, extracted_text (session w') = Some t.
Proof.
  destruct vision; simpl.
  - destruct (step_performs _ _ (extract_text_vision_performs env file primary))
      as [t H].
    destruct (H w) as [evs [Hs Hq]].
    destruct (step_set_extracted_text (Some t)
                (logged w (Call Fextract_text_vision :: evs))) as [w' [Hset Hx]].
    exists w', evs. split; [|split; [exact Hq | eauto]].
    pose proof (step_bind _ (fun t => set_extracted_text (Some t))
                  _ _ _ _ _ _ _ Hs Hset) as Hb.
    now rewrite app_nil_r in Hb.
  - destruct (step_performs _ _ (extract_text_standard_performs env file))
      as [t H].
    destruct (H w) as [evs [Hs Hq]].
    destruct (step_set_extracted_text (Some t)
                (logged w (Call Fextract_text_standard :: evs))) as [w' [Hset Hx]].
    exists w', evs. split; [|split; [exact Hq | eauto]].
    pose proof (step_bind _ (fun t => set_extracted_text (Some t))
                  _ _ _ _ _ _ _ Hs Hset) as Hb.
    now rewrite app_nil_r in Hb.
Qed.

(** The categorization post-step enters neither extraction path nor the
    router. *)
Lemma categorization_step (primary : str) (w : World) :
  exists w' evs,
    step (s <- get_session ;;
          match extracted_text s with
          | Some text =>
              if nonempty text then
                c <- categorize_document env text primary ;;
                set_doc_category c ;;;
                toast (mark_open_folder ++ lit " Detected as: " ++ c) icon_folder
              else ret tt
          | None => ret tt
          end) w tt evs w'
    /\ call_count Fextract_text_vision evs = 0
    /\ call_count Fextract_text_standard evs = 0
    /\ call_count Fget_routing_decision evs = 0.
Proof.
  destruct (extracted_text (session w)) as [text|] eqn:Hx.
  - destruct (nonempty text) eqn:Hne.
    + destruct (step_performs _ _ (categorize_document_performs env text primary))
        as [c H].
      destruct (H w) as [evs [Hs Hq]].
      destruct (step_set_doc_category c
                  (logged w (Call Fcategorize_document :: evs))) as [w1 Hset].
      pose proof (step_toast (mark_open_folder ++ lit " Detected as: " ++ c)
                    icon_folder w1) as Ht.
      pose proof (step_bind _
                    (fun _ => toast (mark_open_folder ++ lit " Detected as: " ++ c)
                                icon_folder)
                    _ _ _ _ _ _ _ Hset Ht) as H2.
      pose proof (step_bind _
                    (fun c => set_doc_category c ;;;
                              toast (mark_open_folder ++ lit " Detected as: " ++ c)
                                icon_folder)
                    _ _ _ _ _ _ _ Hs H2) as H3.
      eexists. eexists. split.
      * eapply (step_bind get_session _ w w _ (session w) tt [] _ (step_get_session w)).
        rewrite Hx, Hne. exact H3.
      * count_calls. rewrite !(no_entry_call_count _ evs Hq). auto.
    + exists w, []. split; [|auto].
      eapply (step_bind get_session _ w w _ (session w) tt [] _ (step_get_session w)).
      rewrite Hx, Hne. apply step_ret.
  - exists w, []. split; [|auto].
    eapply (step_bind get_session _ w w _ (session w) tt [] _ (step_get_session w)).
    rewrite Hx. apply step_ret.
Qed.

Lemma process_document_auto (file : UploadedFile)
    (scanning_mode primary label : str) (w : World) :
  fst (get_routing_decision env file w) = Ok label ->
  exists w' evs,
    step (process_document env file true scanning_mode primary) w tt evs w'
    /\ call_count Fget_routing_decision evs = 1
    /\ call_count (path_of (str_eqb label (lit "VISION"))) evs = 1
    /\ call_count (path_of (negb (str_eqb label (lit "VISION")))) evs = 0.
Proof.
  intros Hlabel.
  destruct (step_performs _ _ (get_routing_decision_performs env file))
    as [l Hroute].
  assert (l = label) as ->.
  { destruct (Hroute w) as [evs [[H _] _]]. rewrite H in Hlabel.
    simpl in Hlabel. congruence. }
  destruct (step_set_summary_result None w) as [w0 [H0 _]].
  destruct (Hroute w0) as [e1 [H1 Q1]].
  pose proof (step_toast (lit "AI Router selected: " ++ label ++ lit " mode")
                icon_robot (logged w0 (Call Fget_routing_decision :: e1))) as H2.
  destruct (extraction_step file primary (str_eqb label (lit "VISION"))
              (logged (logged w0 (Call Fget_routing_decision :: e1))
                 [Toast (lit "AI Router selected: " ++ label ++ lit " mode")
                    icon_robot]))
    as [w3 [e3 [H3 [Q3 _]]]].
  destruct (categorization_step primary w3) as [w4 [e4 [H4 [C1 [C2 C3]]]]].
  eexists. eexists. split.
  - unfold process_document.
    eapply step_bind; [exact H0|].
    eapply step_bind; [|exact H4].
    eapply step_bind; [exact H1|].
    eapply step_bind; [exact H2|].
    exact H3.
  - clear H0 H1 H2 H3 H4 Hroute Hlabel.
    destruct (str_eqb label (lit "VISION")); count_calls;
      rewrite ?C1, ?C2, ?C3, ?(no_entry_call_count _ e1 Q1),
        ?(no_entry_call_count _ e3 Q3); auto.
Qed.

Lemma process_document_manual (file : UploadedFile)
    (scanning_mode primary : str) (w : World) :
  exists w' evs,
    step (process_document env file false scanning_mode primary) w tt evs w'
    /\ call_count Fget_routing_decision evs = 0
    /\ call_count (path_of (contains (lit "AI Vision") scanning_mode)) evs = 1
    /\ call_count (path_of (negb (contains (lit "AI Vision") scanning_mode))) evs
       = 0.
Proof.
  destruct (step_set_summary_result None w) as [w0 [H0 _]].
  destruct (extraction_step file primary
              (contains (lit "AI Vision") scanning_mode) w0)
    as [w3 [e3 [H3 [Q3 _]]]].
  destruct (categorization_step primary w3) as [w4 [e4 [H4 [C1 [C2 C3]]]]].
  eexists. eexists. split.
  - unfold process_document.
    eapply step_bind; [exact H0|].
    eapply step_bind; [|exact H4].
    exact H3.
  - clear H0 H3 H4.
    destruct (contains (lit "AI Vision") scanning_mode); count_calls;
      rewrite ?C1, ?C2, ?C3, ?(no_entry_call_count _ e3 Q3); auto.
Qed.
End Dispatch.

Lemma get_routing_decision_returns (env : Env) (file : UploadedFile) (w : World) :
  exists label, fst (get_routing_decision env file w) = Ok label.
Proof.
  destruct (get_routing_decision_performs env file) as [label H].
  destruct (H w) as [evs [Hrun _]]. exists label. now rewrite Hrun.
Qed.

Lemma process_document_keeps_flag (env : Env) (file : UploadedFile)
    (use_auto : bool) (scanning_mode primary : str) (w : World) :
  failover_active
    (session (snd (process_document env file use_auto scanning_mode primary w)))
  = failover_active (session w).
Proof.
  destruct use_auto.
  - destruct (get_routing_decision_returns env file w) as [label Hl].
    destruct (process_document_auto env file scanning_mode primary label w Hl)
      as [w' [evs [[Hrun [_ Hflag]] _]]].
    now rewrite Hrun.
  - destruct (process_document_manual env file scanning_mode primary w)
      as [w' [evs [[Hrun [_ Hflag]] _]]].
    now rewrite Hrun.
Qed.

(* ================================================================== *)
(** ** Extraction dispatch *)
(* ================================================================== *)

(** C7.  With autonomous routing on, a classification result equal to
    VISION makes the "Process Document" handler enter the vision path once
    and the standard path not at all, and any other result makes it enter the
    standard path once and the vision path not at all, whatever the manual
    mode says.  With autonomous routing off the router is not entered and
    the manual mode alone decides: the vision option leads to the vision
    path, the standard option to the standard path. *)
Theorem extraction_dispatch
    (env : Env) (file : UploadedFile) (primary : str) (w : World) :
  (forall scanning_mode : str,
      fst (get_routing_decision env file w) = Ok (lit "VISION") ->
      call_count Fextract_text_vision
        (log (snd (process_document env file true scanning_mode primary w)))
      = call_count Fextract_text_vision (log w) + 1
      /\ call_count Fextract_text_standard
           (log (snd (process_document env file true scanning_mode primary w)))
         = call_count Fextract_text_standard (log w))
  /\ (forall scanning_mode label : str,
      fst (get_routing_decision env file w) = Ok label ->
      label <> lit "VISION" ->
      call_count Fextract_text_standard
        (log (snd (process_document env file true scanning_mode primary w)))
      = call_count Fextract_text_standard (log w) + 1
      /\ call_count Fextract_text_vision
           (log (snd (process_document env file true scanning_mode primary w)))
         = call_count Fextract_text_vision (log w))
  /\ (call_count Fextract_text_vision
        (log (snd (process_document env file false mode_vision primary w)))
      = call_count Fextract_text_vision (log w) + 1
      /\ call_count Fextract_text_standard
           (log (snd (process_document env file false mode_vision primary w)))
         = call_count Fextract_text_standard (log w)
      /\ call_count Fget_routing_decision
           (log (snd (process_document env file false mode_vision primary w)))
         = call_count Fget_routing_decision (log w))
  /\ (call_count Fextract_text_standard
        (log (snd (process_document env file false mode_standard primary w)))
      = call_count Fextract_text_standard (log w) + 1
      /\ call_count Fextract_text_vision
           (log (snd (process_document env file false mode_standard primary w)))
         = call_count Fextract_text_vision (log w)
      /\ call_count Fget_routing_decision
           (log (snd (process_document env file false mode_standard primary w)))
         = call_count Fget_routing_decision (log w)).
Proof.
  split; [|split; [|split]].
  - intros scanning_mode Hl.
    destruct (process_document_auto env file scanning_mode primary _ w Hl)
      as [w' [evs [[Hrun [Hlog _]] [_ [Hin Hout]]]]].
    rewrite str_eqb_refl in Hin, Hout. simpl in Hin, Hout.
    rewrite Hrun. simpl. rewrite Hlog, !call_count_app, Hin, Hout. lia.
  - intros scanning_mode label Hl Hne.
    destruct (process_document_auto env file scanning_mode primary _ w Hl)
      as [w' [evs [[Hrun [Hlog _]] [_ [Hin Hout]]]]].
    assert (Hb : str_eqb label (lit "VISION") = false).
    { destruct (str_eqb label (lit "VISION")) eqn:E; [|reflexivity].
      apply str_eqb_eq in E. contradiction. }
    rewrite Hb in Hin, Hout. simpl in Hin, Hout.
    rewrite Hrun. simpl. rewrite Hlog, !call_count_app, Hin, Hout. lia.
  - destruct (process_document_manual env file mode_vision primary w)
      as [w' [evs [[Hrun [Hlog _]] [Hr [Hin Hout]]]]].
    change (contains (lit "AI Vision") mode_vision) with true in Hin, Hout.
    simpl in Hin, Hout.
    rewrite Hrun. simpl. rewrite Hlog, !call_count_app, Hin, Hout, Hr. lia.
  - destruct (process_document_manual env file mode_standard primary w)
      as [w' [evs [[Hrun [Hlog _]] [Hr [Hin Hout]]]]].
    change (contains (lit "AI Vision") mode_standard) with false in Hin, Hout.
    simpl in Hin, Hout.
    rewrite Hrun. simpl. rewrite Hlog, !call_count_app, Hin, Hout, Hr. lia.
Qed.

Lemma extraction_dispatch_witness :
  (fst (get_routing_decision env_router_vision png_file fresh_world)
   = Ok (lit "VISION")
   /\ call_count Fextract_text_vision
        (log (snd (process_document env_router_vision png_file true
                     mode_standard (lit "GPT-4o") fresh_world)))
      = 1
   /\ call_count Fextract_text_standard
        (log (snd (process_document env_router_vision png_file true
                     mode_standard (lit "GPT-4o") fresh_world)))
      = 0)
  /\ (fst (get_routing_decision env_router_chatty png_file fresh_world)
      = Ok (lit "HANDWRITTEN")
      /\ lit "HANDWRITTEN" <> lit "VISION"
      /\ call_count Fextract_text_standard
           (log (snd (process_document env_router_chatty png_file true
                        mode_vision (lit "GPT-4o") fresh_world)))
         = 1
      /\ call_count Fextract_text_vision
           (log (snd (process_document env_router_chatty png_file true
                        mode_vision (lit "GPT-4o") fresh_world)))
         = 0).
Proof.
  split.
  - split; [reflexivity|].
    exact (proj1 (extraction_dispatch env_router_vision png_file (lit "GPT-4o")
                    fresh_world) mode_standard eq_refl).
  - split; [reflexivity|].
    assert (Hne : lit "HANDWRITTEN" <> lit "VISION") by (vm_compute; discriminate).
    split; [exact Hne|].
    exact (proj1 (proj2 (extraction_dispatch env_router_chatty png_file
                           (lit "GPT-4o") fresh_world))
             mode_vision (lit "HANDWRITTEN") eq_refl Hne).
Defined.

(* ================================================================== *)
(** ** The failover flag *)
(* ================================================================== *)

(** [summarize_text] never raises; it writes the flag exactly when the
    primary attempt fails, and writes nothing else to the session. *)
Lemma summarize_text_effect
    (env : Env) (text summary_type primary language : str) (w : World) :
  exists out evs,
    summarize_text env text summary_type primary language w
    = (Ok out,
       logged (if primary_failed env primary
                    (summarize_prompt text summary_type language)
               then flagged w true else w) evs).
Proof.
  destruct (summarize_sequence_two primary) as [d1 [d2 Hseq]].
  unfold primary_failed. rewrite summarize_text_unfold, Hseq.
  destruct (summarize_attempt env d1 _) as [out|e1] eqn:H1.
  - rewrite (summarize_loop_answer env 0 d1 [d2] _ _ _ H1), logged_logged.
    simpl. eauto.
  - rewrite (summarize_loop_failure env 0 d1 [d2] _ _ _ H1).
    simpl Nat.eqb. cbv iota. simpl failed. cbv iota.
    rewrite flagged_logged, logged_logged.
    destruct (summarize_attempt env d2 (summarize_prompt text summary_type language))
      as [out|e2] eqn:H2.
    + rewrite (summarize_loop_answer env 1 d2 [] _ _ _ H2), logged_logged. eauto.
    + rewrite (summarize_loop_failure env 1 d2 [] _ _ _ H2), summarize_loop_nil.
      simpl Nat.eqb. cbv iota. rewrite logged_logged. eauto.
Qed.

Lemma summarize_text_flag
    (env : Env) (text summary_type primary language : str) (w : World) :
  failover_active
    (session (snd (summarize_text env text summary_type primary language w)))
  = if primary_failed env primary (summarize_prompt text summary_type language)
    then true else failover_active (session w).
Proof.
  destruct (summarize_text_effect env text summary_type primary language w)
    as [out [evs H]].
  rewrite H. simpl. now destruct (primary_failed env primary _).
Qed.

(** A summarization request issued by a handler: reset, call, store. *)
Lemma reset_then_summarize_flag
    (env : Env) (text instruction primary language : str) (w : World) :
  failover_active
    (session
       (snd ((set_failover_active false ;;;
              r <- summarize_text env text instruction primary language ;;
              set_summary_result (Some r)) w)))
  = primary_failed env primary (summarize_prompt text instruction language).
Proof.
  unfold bind at 1. change (set_failover_active false w) with (Ok tt, flagged w false).
  cbv iota beta. unfold bind at 1.
  destruct (summarize_text_effect env text instruction primary language
              (flagged w false)) as [out [evs H]].
  rewrite H. simpl. now destruct (primary_failed env primary _).
Qed.

(** The failure the loop looks at first is the failure of the call written
    out in [primary_attempt]. *)
Lemma primary_failed_is_primary_attempt (env : Env) (primary prompt : str) :
  primary_failed env primary prompt = failed (primary_attempt env primary prompt).
Proof.
  unfold primary_failed, primary_attempt, summarize_sequence, summarize_attempt.
  now destruct (str_eqb primary (lit "GPT-4o")).
Qed.

(** C4.  [summarize_text] leaves [failover_active] true when its primary
    attempt failed, whatever the later attempt does, and otherwise leaves the
    flag as it found it: a success does not clear it.  The primary attempt is
    the call to OpenAI with gpt-4o when the primary is GPT-4o and the call to
    Groq with llama-3.3-70b-versatile otherwise.  The "Process Document"
    handler does not touch the flag.  The two handlers that issue a
    summarization or custom request reset the flag to false first, so after
    them the flag says whether the primary attempt of that request failed;
    when such a handler does not fire, the flag stays as it was. *)
Theorem failover_flag_policy
    (env : Env) (primary language : str) (w : World) :
  (forall text summary_type : str,
      failover_active
        (session (snd (summarize_text env text summary_type primary language w)))
      = if failed (primary_attempt env primary
                     (summarize_prompt text summary_type language))
        then true else failover_active (session w))
  /\ (forall (file : UploadedFile) (use_auto : bool) (scanning_mode : str),
      failover_active
        (session (snd (process_document env file use_auto scanning_mode primary w)))
      = failover_active (session w))
  /\ (forall summary_type : str,
      failover_active
        (session (snd (summarize_now env summary_type primary language w)))
      = match extracted_text (session w) with
        | Some text =>
            if nonempty text
               && negb (contains (lit "Customized Prompt") summary_type)
            then failed (primary_attempt env primary
                           (summarize_prompt text summary_type language))
            else failover_active (session w)
        | None => failover_active (session w)
        end)
  /\ (forall summary_type user_input : str,
      failover_active
        (session
           (snd (send_instructions env summary_type user_input primary language w)))
      = match extracted_text (session w) with
        | Some text =>
            if nonempty text
               && contains (lit "Customized Prompt") summary_type
               && nonempty user_input
            then failed (primary_attempt env primary
                           (summarize_prompt text user_input language))
            else failover_active (session w)
        | None => failover_active (session w)
        end).
Proof.
  split; [|split; [|split]].
  - intros. rewrite <- primary_failed_is_primary_attempt.
    apply summarize_text_flag.
  - intros. apply process_document_keeps_flag.
  - intros summary_type. unfold summarize_now.
    unfold bind at 1. unfold get_session at 1. cbv iota beta.
    destruct (extracted_text (session w)) as [text|]; [|reflexivity].
    destruct (nonempty text && negb (contains (lit "Customized Prompt") summary_type));
      [|reflexivity].
    rewrite <- primary_failed_is_primary_attempt.
    apply reset_then_summarize_flag.
  - intros summary_type user_input. unfold send_instructions.
    unfold bind at 1. unfold get_session at 1. cbv iota beta.
    destruct (extracted_text (session w)) as [text|]; [|reflexivity].
    destruct (nonempty text && contains (lit "Customized Prompt") summary_type
              && nonempty user_input); [|reflexivity].
    rewrite <- primary_failed_is_primary_attempt.
    apply reset_then_summarize_flag.
Qed.

Lemma failover_flag_policy_witness :
  (primary_attempt env_primary_down (lit "GPT-4o")
     (summarize_prompt invoice_text (lit "Short Summary") (lit "English"))
   = Raise (lit "Connection error.")
   /\ failover_active (session fresh_world) = false
   /\ failover_active
        (session (snd (summarize_text env_primary_down invoice_text
                         (lit "Short Summary") (lit "GPT-4o") (lit "English")
                         fresh_world)))
      = true)
  /\ (primary_attempt env_primary_up (lit "GPT-4o")
        (summarize_prompt invoice_text (lit "Short Summary") (lit "English"))
      = Ok (lit "A $50 invoice.")
      /\ failover_active (session (world_with_text invoice_text true)) = true
      /\ failover_active
           (session (snd (summarize_text env_primary_up invoice_text
                            (lit "Short Summary") (lit "GPT-4o") (lit "English")
                            (world_with_text invoice_text true))))
         = true
      /\ failover_active
           (session (snd (summarize_now env_primary_up (lit "Short Summary")
                            (lit "GPT-4o") (lit "English")
                            (world_with_text invoice_text true))))
         = false).
Proof.
  split.
  - split; [reflexivity|]. split; [reflexivity|].
    exact (proj1 (failover_flag_policy env_primary_down (lit "GPT-4o")
                    (lit "English") fresh_world)
             invoice_text (lit "Short Summary")).
  - split; [reflexivity|]. split; [reflexivity|]. split.
    + exact (proj1 (failover_flag_policy env_primary_up (lit "GPT-4o")
                      (lit "English") (world_with_text invoice_text true))
               invoice_text (lit "Short Summary")).
    + exact (proj1 (proj2 (proj2 (failover_flag_policy env_primary_up
                                    (lit "GPT-4o") (lit "English")
                                    (world_with_text invoice_text true))))
               (lit "Short Summary")).
Defined.

(* ================================================================== *)
(** ** Classification *)
(* ================================================================== *)

(** C5, as stated, fails: the router returns whatever the provider replied,
    stripped and uppercased.  A reply "Handwritten" comes back as
    HANDWRITTEN and an empty reply as the empty string; neither is OCR or
    VISION. *)
Lemma routing_decision_not_a_label :
  fst (get_routing_decision env_router_chatty png_file fresh_world)
  = Ok (lit "HANDWRITTEN")
  /\ lit "HANDWRITTEN" <> lit "OCR"
  /\ lit "HANDWRITTEN" <> lit "VISION"
  /\ fst (get_routing_decision env_router_silent png_file fresh_world) = Ok []
  /\ [] <> lit "OCR"
  /\ [] <> lit "VISION".
Proof.
  repeat split; try reflexivity; vm_compute; discriminate.
Qed.

(** C5, amended.  [get_routing_decision] never raises.  It returns OCR when
    the image preparation fails and when both providers fail; otherwise it
    returns the reply of the first provider that answers (OpenAI, then
    Groq), stripped and uppercased, without comparing it with the two
    labels. *)
Theorem routing_decision_outcomes (env : Env) (file : UploadedFile) (w : World) :
  (exists label, fst (get_routing_decision env file w) = Ok label)
  /\ (forall e : str,
        routing_image env file = Raise e ->
        fst (get_routing_decision env file w) = Ok (lit "OCR"))
  /\ (forall base64_img reply : str,
        routing_image env file = Ok base64_img ->
        chat env openai_client (routing_request (lit "gpt-4o-mini") base64_img)
        = Ok reply ->
        fst (get_routing_decision env file w)
        = Ok (upper (unicode_upper env) (strip reply)))
  /\ (forall base64_img e reply : str,
        routing_image env file = Ok base64_img ->
        chat env openai_client (routing_request (lit "gpt-4o-mini") base64_img)
        = Raise e ->
        chat env groq_client (routing_request llama_scout base64_img)
        = Ok reply ->
        fst (get_routing_decision env file w)
        = Ok (upper (unicode_upper env) (strip reply)))
  /\ (forall base64_img e1 e2 : str,
        routing_image env file = Ok base64_img ->
        chat env openai_client (routing_request (lit "gpt-4o-mini") base64_img)
        = Raise e1 ->
        chat env groq_client (routing_request llama_scout base64_img)
        = Raise e2 ->
        fst (get_routing_decision env file w) = Ok (lit "OCR")).
Proof.
  split; [apply get_routing_decision_returns|].
  rewrite get_routing_decision_run.
  repeat split.
  - intros e H. now rewrite H.
  - intros b reply Hb H1. now rewrite Hb, H1.
  - intros b e reply Hb H1 H2. now rewrite Hb, H1, H2.
  - intros b e1 e2 Hb H1 H2. now rewrite Hb, H1, H2.
Qed.

Lemma routing_decision_outcomes_witness :
  routing_image env_router_vision png_file = Ok (lit "AA==")
  /\ chat env_router_vision openai_client
       (routing_request (lit "gpt-4o-mini") (lit "AA=="))
     = Ok (lit " vision ")
  /\ fst (get_routing_decision env_router_vision png_file fresh_world)
     = Ok (upper (unicode_upper env_router_vision) (strip (lit " vision "))).
Proof.
  split; [reflexivity|]. split; [reflexivity|].
  exact (proj1 (proj2 (proj2 (routing_decision_outcomes env_router_vision
                                png_file fresh_world)))
           (lit "AA==") (lit " vision ") eq_refl eq_refl).
Defined.

(* ================================================================== *)
(** ** The vision path *)
(* ================================================================== *)

Section VisionPath.

Variable env : Env.
Variable content : Content.

Lemma vision_loop_content_answer (d : Descriptor) (rest : list Descriptor)
    (base64_img : str) (out : option str) (w : World) :
  content (desc_client d) (vision_request (desc_model d) base64_img) = Ok out ->
  vision_loop_content content (d :: rest) base64_img w
  = (Ok out,
     logged w [Remote (desc_client d) (vision_request (desc_model d) base64_img)]).
Proof.
  destruct d as [[name client] model_id].
  unfold desc_client, desc_model. simpl.
  intros H. unfold try_except, remote_content, bind, emit, lift. simpl.
  now rewrite H.
Qed.

Lemma vision_loop_content_failure (d : Descriptor) (rest : list Descriptor)
    (base64_img e : str) (w : World) :
  content (desc_client d) (vision_request (desc_model d) base64_img) = Raise e ->
  vision_loop_content content (d :: rest) base64_img w
  = vision_loop_content content rest base64_img
      (logged w [Remote (desc_client d) (vision_request (desc_model d) base64_img);
                 Toast (vision_failed_notice (desc_name d)) icon_arrows]).
Proof.
  destruct d as [[name client] model_id].
  unfold desc_client, desc_model, desc_name. simpl.
  intros H. unfold try_except, remote_content, bind, emit, lift, toast. simpl.
  rewrite H. unfold logged. simpl. now rewrite <- app_assoc.
Qed.

(** What the loop returns: the content of a descriptor of the sequence, or
    the sentinel when every descriptor failed. *)
Lemma vision_loop_content_cases (sequence : list Descriptor) (base64_img : str)
    (w : World) :
  exists out evs,
    vision_loop_content content sequence base64_img w = (Ok out, logged w evs)
    /\ no_entry evs
    /\ ((exists d,
            In d sequence
            /\ content (desc_client d) (vision_request (desc_model d) base64_img)
               = Ok out)
        \/ (out = Some vision_sentinel
            /\ forall d,
                 In d sequence ->
                 failed (content (desc_client d)
                           (vision_request (desc_model d) base64_img))
                 = true)).
Proof.
  revert w. induction sequence as [|d rest IH]; intros w.
  - exists (Some vision_sentinel), []. simpl. rewrite logged_nil.
    split; [reflexivity|]. split; [constructor|].
    right. split; [reflexivity | intros d []].
  - destruct (content (desc_client d)
                (vision_request (desc_model d) base64_img)) as [out|e] eqn:Hd.
    + exists out. eexists.
      split; [apply vision_loop_content_answer; exact Hd|].
      split; [repeat constructor|].
      left. exists d. split; [now left | exact Hd].
    + rewrite (vision_loop_content_failure d rest base64_img e w Hd).
      destruct (IH (logged w
                      [Remote (desc_client d)
                         (vision_request (desc_model d) base64_img);
                       Toast (vision_failed_notice (desc_name d)) icon_arrows]))
        as [out [evs [Hrun [Hq Hcases]]]].
      exists out. eexists. split; [rewrite Hrun, logged_logged; reflexivity|].
      split; [apply no_entry_app; [repeat constructor | exact Hq]|].
      destruct Hcases as [[d' [Hin Hok]] | [Hs Hall]].
      * left. exists d'. split; [now right | exact Hok].
      * right. split; [exact Hs|].
        intros d' [<- | Hin]; [now rewrite Hd | now apply Hall].
Qed.

Lemma extract_text_vision_content_unfold (file : UploadedFile) (provider : str)
    (w : World) :
  extract_text_vision_content env content file provider w
  = match vision_image env file with
    | Ok base64_img =>
        vision_loop_content content (vision_sequence provider) base64_img
          (logged w [Call Fextract_text_vision])
    | Raise e =>
        (Ok (Some (lit "Logic Error: " ++ e)),
         logged w [Call Fextract_text_vision])
    end.
Proof.
  unfold extract_text_vision_content, bind, try_except, lift, emit. simpl.
  destruct (vision_image env file) as [b|e]; [|reflexivity].
  fold (logged w [Call Fextract_text_vision]).
  destruct (vision_loop_content_cases (vision_sequence provider) b
              (logged w [Call Fextract_text_vision]))
    as [out [evs [Hrun _]]].
  now rewrite Hrun.
Qed.

End VisionPath.

(** With replies that all carry their text, the vision path with unchecked
    content is the vision path of the text replies. *)
Lemma vision_loop_content_of_text (env : Env) (sequence : list Descriptor)
    (base64_img : str) (w : World) :
  vision_loop_content (text_content env) sequence base64_img w
  = match vision_loop env sequence base64_img w with
    | (Ok text, w') => (Ok (Some text), w')
    | (Raise e, w') => (Raise e, w')
    end.
Proof.
  revert w. induction sequence as [|[[name client] model_id] rest IH]; intros w;
    [reflexivity|].
  simpl.
  unfold try_except, remote_content, remote, bind, emit, lift, toast,
    text_content.
  simpl. destruct (chat env client _); [reflexivity|]. apply IH.
Qed.

Lemma extract_text_vision_content_of_text
    (env : Env) (file : UploadedFile) (provider : str) (w : World) :
  extract_text_vision_content env (text_content env) file provider w
  = match extract_text_vision env file provider w with
    | (Ok text, w') => (Ok (Some text), w')
    | (Raise e, w') => (Raise e, w')
    end.
Proof.
  rewrite extract_text_vision_content_unfold, extract_text_vision_unfold.
  destruct (vision_image env file) as [b|e]; [|reflexivity].
  apply vision_loop_content_of_text.
Qed.



(** C6, as stated, fails: with OpenAI down and Groq answering, the vision
    path returns Groq's transcription, yet [failover_active], false before,
    is still false afterwards. *)
Lemma vision_failover_leaves_flag_false :
  vision_image env_vision_failover png_file = Ok (lit "iVBORw==")
  /\ vision_attempt env_vision_failover gpt4o (lit "iVBORw==")
     = Raise (lit "Connection error.")
  /\ fst (extract_text_vision env_vision_failover png_file (lit "GPT-4o")
            fresh_world)
     = Ok invoice_text
  /\ failover_active (session fresh_world) = false
  /\ failover_active
       (session (snd (extract_text_vision env_vision_failover png_file
                        (lit "GPT-4o") fresh_world)))
     = false.
Proof. repeat split. Qed.

(** C6, amended.  The vision path tries the two providers of its sequence in
    order and returns the first answer, or the fixed string when both fail.
    When the first provider fails, that failure is signalled by a toast that
    names the provider; the session, and so [failover_active], is left
    exactly as it was. *)
Theorem vision_failover_is_toasted
    (env : Env) (file : UploadedFile) (provider : str) (w : World)
    (d1 d2 : Descriptor) (base64_img e : str) :
  vision_sequence provider = [d1; d2] ->
  vision_image env file = Ok base64_img ->
  vision_attempt env d1 base64_img = Raise e ->
  fst (extract_text_vision env file provider w)
  = Ok match vision_attempt env d2 base64_img with
       | Ok out => out
       | Raise _ => vision_sentinel
       end
  /\ session (snd (extract_text_vision env file provider w)) = session w
  /\ log (snd (extract_text_vision env file provider w))
     = log w
       ++ [Call Fextract_text_vision;
           Remote (desc_client d1) (vision_request (desc_model d1) base64_img);
           Toast (vision_failed_notice (desc_name d1)) icon_arrows;
           Remote (desc_client d2) (vision_request (desc_model d2) base64_img)]
       ++ (if failed (vision_attempt env d2 base64_img)
           then [Toast (vision_failed_notice (desc_name d2)) icon_arrows]
           else []).
Proof.
  intros Hseq Himg H1.
  rewrite extract_text_vision_unfold, Himg, Hseq.
  rewrite (vision_loop_failure env d1 [d2] base64_img e _ H1), logged_logged.
  destruct (vision_attempt env d2 base64_img) as [out|e2] eqn:H2.
  - rewrite (vision_loop_answer env d2 [] base64_img out _ H2), logged_logged.
    simpl. auto.
  - rewrite (vision_loop_failure env d2 [] base64_img e2 _ H2), logged_logged.
    simpl. auto.
Qed.

Lemma vision_failover_is_toasted_witness :
  vision_sequence (lit "GPT-4o") = [gpt4o; groq_scout]
  /\ vision_image env_vision_failover png_file = Ok (lit "iVBORw==")
  /\ vision_attempt env_vision_failover gpt4o (lit "iVBORw==")
     = Raise (lit "Connection error.")
  /\ session (snd (extract_text_vision env_vision_failover png_file
                     (lit "GPT-4o") fresh_world))
     = session fresh_world.
Proof.
  split; [reflexivity|]. split; [reflexivity|]. split; [reflexivity|].
  exact (proj1 (proj2 (vision_failover_is_toasted env_vision_failover png_file
                         (lit "GPT-4o") fresh_world gpt4o groq_scout
                         (lit "iVBORw==") (lit "Connection error.")
                         eq_refl eq_refl eq_refl))).
Defined.

(* ================================================================== *)
(** ** The standard path *)
(* ================================================================== *)

Section StandardPath.

Variable env : Env.

(** The page loop appends each page's text and a newline. *)
Lemma ocr_pages_all (images : list (Image env)) (outs : list str) :
  Forall2 (fun img out => image_to_string env img = Ok out) images outs ->
  forall text,
    ocr_pages env images text
    = Ok (text ++ List.concat (map (fun out => out ++ [newline]) outs)).
Proof.
  induction 1 as [|img out images outs Hpage _ IH]; intros text; simpl.
  - now rewrite app_nil_r.
  - rewrite Hpage. simpl. rewrite IH. now rewrite <- !app_assoc.
Qed.

(** A page that cannot be read stops the loop with its exception. *)
Lemma ocr_pages_failure (before after : list (Image env)) (img : Image env)
    (outs : list str) (e : str) :
  Forall2 (fun img out => image_to_string env img = Ok out) before outs ->
  image_to_string env img = Raise e ->
  forall text, ocr_pages env (before ++ img :: after) text = Raise e.
Proof.
  induction 1 as [|img0 out before outs Hpage _ IH]; intros Hfail text; simpl.
  - now rewrite Hfail.
  - rewrite Hpage. simpl. now apply IH.
Qed.

End StandardPath.

(** Newline-terminated pages are the newline-joined pages and one more
    newline. *)
Lemma terminated_is_joined (outs : list str) :
  outs <> [] ->
  List.concat (map (fun out => out ++ [newline]) outs)
  = join [newline] outs ++ [newline].
Proof.
  induction outs as [|out rest IH]; [congruence|]. intros _.
  destruct rest as [|out' rest'].
  - simpl. now rewrite app_nil_r.
  - change (List.concat (map (fun out => out ++ [newline]) (out :: out' :: rest')))
      with ((out ++ [newline])
            ++ List.concat (map (fun out => out ++ [newline]) (out' :: rest'))).
    rewrite IH by discriminate.
    change (join [newline] (out :: out' :: rest'))
      with (out ++ [newline] ++ join [newline] (out' :: rest')).
    now rewrite <- !app_assoc.
Qed.

(** C9, as stated, fails on the joining: for a two-page PDF the standard
    path returns each page's text followed by a newline, which is not the
    two texts joined by a newline separator. *)
Lemma standard_path_not_joined :
  fst (extract_text_standard env_two_pages pdf_file fresh_world)
  = Ok (lit "Page one" ++ [newline] ++ lit "Page two" ++ [newline])
  /\ join [newline] [lit "Page one"; lit "Page two"]
     = lit "Page one" ++ [newline] ++ lit "Page two"
  /\ fst (extract_text_standard env_two_pages pdf_file fresh_world)
     <> Ok (join [newline] [lit "Page one"; lit "Page two"]).
Proof.
  split; [reflexivity|]. split; [reflexivity|].
  vm_compute. discriminate.
Qed.

(** C9, amended.  The standard path never raises and makes no remote call:
    it returns a string and adds only its own entry to the log.  For a PDF
    whose pages are all read, the string is the page texts joined with
    newlines and ended by one more newline.  When anything in its body
    raises, the string is the OCR-Error message of that exception. *)
Theorem standard_path_is_local (env : Env) (file : UploadedFile) (w : World) :
  (exists text,
      extract_text_standard env file w
      = (Ok text, logged w [Call Fextract_text_standard]))
  /\ remote_count (log (snd (extract_text_standard env file w)))
     = remote_count (log w)
  /\ (forall (images : list (Image env)) (outs : list str),
        file_type file = pdf_mime ->
        convert_from_bytes env (file_value file) = Ok images ->
        Forall2 (fun img out => image_to_string env img = Ok out) images outs ->
        outs <> [] ->
        fst (extract_text_standard env file w)
        = Ok (join [newline] outs ++ [newline]))
  /\ (forall e : str,
        standard_text env file = Raise e ->
        fst (extract_text_standard env file w) = Ok (lit "OCR Error: " ++ e)).
Proof.
  rewrite extract_text_standard_run. simpl.
  split; [eauto|]. split.
  { rewrite remote_count_app.
    change (remote_count [Call Fextract_text_standard]) with 0. lia. }
  split.
  - intros images outs Hpdf Hconv Hpages Hne.
    unfold standard_text. rewrite Hpdf, str_eqb_refl, Hconv. simpl.
    rewrite (ocr_pages_all env images outs Hpages []). simpl.
    now rewrite terminated_is_joined.
  - intros e He. now rewrite He.
Qed.

Lemma standard_path_is_local_witness :
  file_type pdf_file = pdf_mime
  /\ convert_from_bytes env_two_pages (file_value pdf_file) = Ok [1%N; 2%N]
  /\ Forall2 (fun img out => image_to_string env_two_pages img = Ok out)
       [1%N; 2%N] [lit "Page one"; lit "Page two"]
  /\ [lit "Page one"; lit "Page two"] <> []
  /\ fst (extract_text_standard env_two_pages pdf_file fresh_world)
     = Ok (join [newline] [lit "Page one"; lit "Page two"] ++ [newline]).
Proof.
  assert (Hpages : Forall2
                     (fun img out => image_to_string env_two_pages img = Ok out)
                     [1%N; 2%N] [lit "Page one"; lit "Page two"])
    by (repeat constructor).
  assert (Hne : [lit "Page one"; lit "Page two"] <> []) by discriminate.
  split; [reflexivity|]. split; [reflexivity|].
  split; [exact Hpages|]. split; [exact Hne|].
  exact (proj1 (proj2 (proj2 (standard_path_is_local env_two_pages pdf_file
                                fresh_world)))
           [1%N; 2%N] [lit "Page one"; lit "Page two"]
           eq_refl eq_refl Hpages Hne).
Defined.

(* ================================================================== *)
(** ** The report *)
(* ================================================================== *)

Lemma replace_app (old : N) (new a b : str) :
  replace old new (a ++ b) = replace old new a ++ replace old new b.
Proof. apply flat_map_app. Qed.

(** The three replacements in the order of the source escape one character
    as [escape_char] does: the ampersands that the later replacements bring
    in are not escaped again. *)
Lemma clean_line_char (c : N) : clean_line [c] = escape_char c.
Proof.
  unfold clean_line, escape_char, replace. simpl.
  destruct (c =? 38)%N; [reflexivity|]. simpl.
  destruct (c =? 60)%N; [reflexivity|]. simpl.
  destruct (c =? 62)%N; reflexivity.
Qed.

Lemma clean_line_app (a b : str) :
  clean_line (a ++ b) = clean_line a ++ clean_line b.
Proof. unfold clean_line. now rewrite !replace_app. Qed.

Lemma clean_line_escape (line : str) : clean_line line = escape line.
Proof.
  induction line as [|c line IH]; [reflexivity|].
  change (c :: line) with ([c] ++ line).
  rewrite clean_line_app, clean_line_char, IH. reflexivity.
Qed.

(** The loop of [generate_pdf] appends, in order, one paragraph for each
    line that is not blank. *)
Lemma story_loop (lines : list str) (acc : list Paragraph) :
  fold_left
    (fun story line =>
       if nonempty (strip line)
       then story ++ [ {| para_text := clean_line line; para_style := Normal |} ]
       else story)
    lines acc
  = acc ++ map paragraph_of (filter nonblank lines).
Proof.
  revert acc. induction lines as [|line lines IH]; intros acc; simpl.
  - now rewrite app_nil_r.
  - rewrite IH. unfold nonblank at 2.
    destruct (nonempty (strip line)); [|reflexivity].
    simpl. unfold paragraph_of at 2. rewrite clean_line_escape.
    now rewrite <- app_assoc.
Qed.

(** C8, as stated, fails on lines that hold only whitespace.  In the text of
    three lines "A", " " and "B" the middle line is not empty, so one
    paragraph per non-empty line would give three; the story has, after its
    two fixed paragraphs, only the paragraphs of "A" and "B". *)
Lemma whitespace_line_gets_no_paragraph :
  split newline (lit "A" ++ [newline] ++ lit " " ++ [newline] ++ lit "B")
  = [lit "A"; lit " "; lit "B"]
  /\ nonempty (lit " ") = true
  /\ paragraphs_per_nonempty_line
       (lit "A" ++ [newline] ++ lit " " ++ [newline] ++ lit "B")
     = [paragraph_of (lit "A"); paragraph_of (lit " "); paragraph_of (lit "B")]
  /\ story (lit "A" ++ [newline] ++ lit " " ++ [newline] ++ lit "B")
     = [report_title; report_spacer;
        paragraph_of (lit "A"); paragraph_of (lit "B")]
  /\ skipn 2 (story (lit "A" ++ [newline] ++ lit " " ++ [newline] ++ lit "B"))
     <> paragraphs_per_nonempty_line
          (lit "A" ++ [newline] ++ lit " " ++ [newline] ++ lit "B").
Proof.
  repeat split. vm_compute. discriminate.
Qed.

(** C8, amended.  The story handed to the document builder is the fixed
    title paragraph and the fixed line-break paragraph, followed by one
    paragraph for each input line that [strip] leaves non-empty, in order;
    the text of such a paragraph is the line itself, not stripped, with each
    ampersand, less-than and greater-than sign replaced by its entity and
    every other character kept, so that "A & B < C" becomes
    "A &amp; B &lt; C". *)
Theorem report_story (summary_text : str) :
  story summary_text
  = report_title :: report_spacer
    :: map paragraph_of (filter nonblank (split newline summary_text))
  /\ (forall (env : Env) (w : World),
        generate_pdf env summary_text w
        = (doc_build env
             (report_title :: report_spacer
              :: map paragraph_of (filter nonblank (split newline summary_text))),
           logged w [Call Fgenerate_pdf]))
  /\ (forall line : str,
        clean_line line = flat_map escape_char line)
  /\ clean_line (lit "A & B < C") = lit "A &amp; B &lt; C".
Proof.
  assert (Hstory : story summary_text
                   = report_title :: report_spacer
                     :: map paragraph_of
                          (filter nonblank (split newline summary_text))).
  { unfold story. now rewrite story_loop. }
  split; [exact Hstory|]. split; [|split].
  - intros env w. unfold generate_pdf, bind, emit, lift. simpl.
    now rewrite Hstory.
  - apply clean_line_escape.
  - reflexivity.
Qed.

(* ================================================================== *)
(** ** Categorization *)
(* ================================================================== *)

Lemma replace_removes (old : N) (new s : str) :
  ~ In old new -> ~ In old (replace old new s).
Proof.
  intros Hnew. unfold replace. induction s as [|c s IH]; simpl; [auto|].
  intros H. apply in_app_or in H as [H | H]; [|auto].
  destruct (c =? old)%N eqn:E; [auto|].
  destruct H as [-> | []]. now rewrite N.eqb_refl in E.
Qed.

Lemma categorize_document_run (env : Env) (text primary : str) (w : World) :
  categorize_document env text primary w
  = (Ok (category_label env text primary),
     logged w [Call Fcategorize_document;
               Remote (categorize_client primary)
                 (categorize_request text primary)]).
Proof.
  unfold categorize_document, category_label, categorize_client,
    categorize_request, bind, try_except, lift, emit, ret, remote.
  simpl.
  destruct (chat env _ _) as [reply|e];
    unfold logged; simpl; now rewrite <- app_assoc.
Qed.

Lemma category_label_no_space (env : Env) (text primary : str) :
  ~ In 32%N (category_label env text primary).
Proof.
  unfold category_label. destruct (chat env _ _) as [reply|e].
  - apply replace_removes. vm_compute. intuition discriminate.
  - vm_compute. intuition discriminate.
Qed.

(** X1.  [categorize_document] never raises and never falls back: it makes
    exactly one remote call, to the client of the primary provider (OpenAI
    when the primary is GPT-4o, Groq for any other value), without an image
    and with [max_tokens] 10, and leaves the session alone.  The label is the
    reply stripped with every space replaced by an underscore, or Document
    when the call fails; in both cases it contains no space. *)
Theorem categorize_document_single_call
    (env : Env) (text primary : str) (w : World) :
  exists label,
    categorize_document env text primary w
    = (Ok label,
       logged w [Call Fcategorize_document;
                 Remote (if str_eqb primary (lit "GPT-4o")
                         then openai_client else groq_client)
                   {| req_model := if str_eqb primary (lit "GPT-4o")
                                   then lit "gpt-4o-mini"
                                   else lit "llama-3.1-8b-instant";
                      req_text := categorize_prompt text;
                      req_image_url := None;
                      req_max_tokens := Some 10%N |}])
    /\ ~ In 32%N label
    /\ (forall reply,
          chat env (categorize_client primary) (categorize_request text primary)
          = Ok reply ->
          label = replace 32%N (lit "_") (strip reply))
    /\ (forall e,
          chat env (categorize_client primary) (categorize_request text primary)
          = Raise e ->
          label = lit "Document").
Proof.
  exists (category_label env text primary).
  split; [apply categorize_document_run|].
  split; [apply category_label_no_space|].
  unfold category_label. split.
  - intros reply H. now rewrite H.
  - intros e H. now rewrite H.
Qed.

(** X2.  Only the first 1000 code points of the text reach the
    categorization prompt: two texts that agree on them are categorized by
    the very same run, and the prompt is never more than 1000 code points
    longer than the prompt of the empty text. *)
Theorem categorize_document_reads_prefix
    (env : Env) (text text' primary : str) (w : World) :
  firstn 1000 text = firstn 1000 text' ->
  categorize_document env text primary w
  = categorize_document env text' primary w
  /\ List.length (categorize_prompt text)
     <= List.length (categorize_prompt []) + 1000.
Proof.
  intros H. split.
  - rewrite !categorize_document_run.
    unfold category_label, categorize_request, categorize_prompt.
    now rewrite H.
  - unfold categorize_prompt. rewrite !length_app, firstn_nil.
    pose proof (firstn_le_length 1000 text) as Hle.
    change (List.length (@nil N)) with 0. lia.
Qed.

Lemma categorize_document_reads_prefix_witness :
  firstn 1000 long_text_a = firstn 1000 long_text_b
  /\ long_text_a <> long_text_b
  /\ categorize_document env_two_words long_text_a (lit "Groq") fresh_world
     = categorize_document env_two_words long_text_b (lit "Groq") fresh_world.
Proof.
  assert (Hpre : firstn 1000 long_text_a = firstn 1000 long_text_b)
    by (vm_compute; reflexivity).
  split; [exact Hpre|]. split.
  - intros H. apply (f_equal (fun s => nth 1001 s 0%N)) in H.
    vm_compute in H. discriminate H.
  - exact (proj1 (categorize_document_reads_prefix env_two_words long_text_a
                    long_text_b (lit "Groq") fresh_world Hpre)).
Defined.

(* ================================================================== *)
(** ** More on the report *)
(* ================================================================== *)

(** The four shapes of an escaped character. *)
Lemma escape_char_cases (c : N) :
  (c = 38%N /\ escape_char c = [38; 97; 109; 112; 59]%N)
  \/ (c = 60%N /\ escape_char c = [38; 108; 116; 59]%N)
  \/ (c = 62%N /\ escape_char c = [38; 103; 116; 59]%N)
  \/ (c <> 38%N /\ c <> 60%N /\ c <> 62%N /\ escape_char c = [c]).
Proof.
  unfold escape_char.
  destruct (c =? 38)%N eqn:E38.
  { apply N.eqb_eq in E38. left. split; [exact E38 | reflexivity]. }
  destruct (c =? 60)%N eqn:E60.
  { apply N.eqb_eq in E60. right. left. split; [exact E60 | reflexivity]. }
  destruct (c =? 62)%N eqn:E62.
  { apply N.eqb_eq in E62. right. right. left. split; [exact E62 | reflexivity]. }
  apply N.eqb_neq in E38, E60, E62. right. right. right. auto.
Qed.

(** Escaping brings in no angle bracket and no newline. *)
Lemma escape_char_safe (c x : N) :
  In x (escape_char c) ->
  x <> 60%N /\ x <> 62%N /\ (x = newline -> c = newline).
Proof.
  destruct (escape_char_cases c)
    as [[-> ->] | [[-> ->] | [[-> ->] | [H38 [H60 [H62 ->]]]]]];
    simpl; intros H;
    repeat match goal with
           | H : _ \/ _ |- _ => destruct H as [H | H]
           | H : False |- _ => destruct H
           end;
    subst x; repeat split; try discriminate; auto.
Qed.

Lemma escape_safe (line : str) (x : N) :
  In x (escape line) ->
  x <> 60%N /\ x <> 62%N /\ (x = newline -> In newline line).
Proof.
  unfold escape. rewrite in_flat_map. intros [c [Hc Hx]].
  destruct (escape_char_safe c x Hx) as [H60 [H62 Hnl]].
  repeat split; auto. intros E. now rewrite <- (Hnl E).
Qed.

(** No line of a split text holds the separator. *)
Lemma split_no_separator (sep : N) (s : str) :
  Forall (fun line => ~ In sep line) (split sep s).
Proof.
  induction s as [|c s IH]; simpl.
  - repeat constructor. auto.
  - destruct (c =? sep)%N eqn:E.
    + constructor; [auto | exact IH].
    + apply N.eqb_neq in E.
      destruct (split sep s) as [|l ls]; [repeat constructor; simpl; intuition|].
      inversion IH as [|? ? Hl Hls]; subst.
      constructor; [|exact Hls].
      simpl. intros [H | H]; [now apply E | now apply Hl].
Qed.

(** X3.  Whatever the summary text is, no paragraph that the report builds
    from it contains a less-than sign, a greater-than sign or a newline, and
    all of them have the Normal style: the text cannot open or close a tag
    of the paragraph markup. *)
Theorem report_paragraphs_hold_no_tag (summary_text : str) :
  Forall (fun p =>
            para_style p = Normal
            /\ ~ In 60%N (para_text p)
            /\ ~ In 62%N (para_text p)
            /\ ~ In newline (para_text p))
         (skipn 2 (story summary_text)).
Proof.
  unfold story. rewrite story_loop. simpl skipn.
  apply Forall_map, Forall_forall. intros line Hin.
  apply filter_In in Hin as [Hin _].
  pose proof (split_no_separator newline summary_text) as Hsep.
  rewrite Forall_forall in Hsep. specialize (Hsep line Hin).
  simpl. repeat split.
  - intros H. now destruct (escape_safe line 60%N H) as [H60 _].
  - intros H. now destruct (escape_safe line 62%N H) as [_ [H62 _]].
  - intros H. destruct (escape_safe line newline H) as [_ [_ Hnl]]. auto.
Qed.

Lemma escape_cons (c : N) (line : str) :
  escape (c :: line) = escape_char c ++ escape line.
Proof. reflexivity. Qed.

Lemma escape_injective (a b : str) : escape a = escape b -> a = b.
Proof.
  revert b. induction a as [|x a IH]; intros [|y b] H.
  - reflexivity.
  - rewrite escape_cons in H.
    destruct (escape_char_cases y)
      as [[_ E] | [[_ E] | [[_ E] | [_ [_ [_ E]]]]]];
      rewrite E in H; discriminate H.
  - rewrite escape_cons in H.
    destruct (escape_char_cases x)
      as [[_ E] | [[_ E] | [[_ E] | [_ [_ [_ E]]]]]];
      rewrite E in H; discriminate H.
  - rewrite !escape_cons in H.
    destruct (escape_char_cases x)
      as [[Hx Ex] | [[Hx Ex] | [[Hx Ex] | [Hx1 [Hx2 [Hx3 Ex]]]]]];
      destruct (escape_char_cases y)
        as [[Hy Ey] | [[Hy Ey] | [[Hy Ey] | [Hy1 [Hy2 [Hy3 Ey]]]]]];
      rewrite Ex, Ey in H; simpl in H; inversion H; subst;
      try congruence; f_equal; apply IH; assumption.
Qed.

(** X4.  The escaping of a line loses nothing: two lines with the same
    escaped text are the same line. *)
Theorem clean_line_injective (a b : str) :
  clean_line a = clean_line b -> a = b.
Proof. rewrite !clean_line_escape. apply escape_injective. Qed.

Lemma clean_line_injective_witness :
  clean_line (lit "A & B < C") = clean_line (lit "A & B < C")
  /\ lit "A & B < C" = lit "A & B < C".
Proof.
  split; [reflexivity|].
  exact (clean_line_injective (lit "A & B < C") (lit "A & B < C") eq_refl).
Defined.

Lemma lstrip_all_space (s : str) :
  Forall (fun c => is_space c = true) s -> lstrip s = [].
Proof.
  induction 1 as [|c s Hc _ IH]; simpl; [reflexivity|]. now rewrite Hc.
Qed.

Lemma strip_all_space (s : str) :
  Forall (fun c => is_space c = true) s -> strip s = [].
Proof.
  intros H. unfold strip, rstrip. now rewrite (lstrip_all_space s H).
Qed.

(** The lines of a split text are made of characters of the text. *)
Lemma split_Forall (P : N -> Prop) (sep : N) (s : str) :
  Forall P s -> Forall (Forall P) (split sep s).
Proof.
  induction 1 as [|c s Hc _ IH]; simpl.
  - repeat constructor.
  - destruct (c =? sep)%N.
    + constructor; [constructor | exact IH].
    + destruct (split sep s) as [|l ls]; [repeat constructor; exact Hc|].
      inversion IH as [|? ? Hl Hls]; subst.
      constructor; [constructor; assumption | exact Hls].
Qed.

(** X5.  A summary text made of whitespace only, the empty text included,
    gives a report that holds the title and the line break and nothing
    else. *)
Theorem blank_text_gives_title_only (summary_text : str) :
  Forall (fun c => is_space c = true) summary_text ->
  story summary_text = [report_title; report_spacer].
Proof.
  intros H. unfold story. rewrite story_loop.
  assert (Hnone : filter nonblank (split newline summary_text) = []).
  { pose proof (split_Forall _ newline summary_text H) as Hlines.
    induction Hlines as [|line lines Hline _ IH]; [reflexivity|].
    simpl. unfold nonblank at 1. rewrite (strip_all_space line Hline).
    exact IH. }
  now rewrite Hnone.
Qed.

Lemma blank_text_gives_title_only_witness :
  Forall (fun c => is_space c = true) [32; 10; 9; 160; 10; 32]%N
  /\ story [32; 10; 9; 160; 10; 32]%N = [report_title; report_spacer].
Proof.
  assert (H : Forall (fun c => is_space c = true) [32; 10; 9; 160; 10; 32]%N)
    by (repeat constructor).
  split; [exact H|].
  exact (blank_text_gives_title_only [32; 10; 9; 160; 10; 32]%N H).
Defined.

(* ================================================================== *)
(** ** The base64 text of an image *)
(* ================================================================== *)

(** Induction over a list three elements at a time, as the encoder reads
    it. *)
Lemma list_ind3 (A : Type) (P : list A -> Prop) :
  P [] ->
  (forall a, P [a]) ->
  (forall a b, P [a; b]) ->
  (forall a b c r, P r -> P (a :: b :: c :: r)) ->
  forall l, P l.
Proof.
  intros H0 H1 H2 H3 l.
  assert (H : forall n l, List.length l <= n -> P l).
  { clear l. induction n as [|n IH]; intros [|a [|b [|c r]]] Hl; auto.
    - simpl in Hl. lia.
    - apply H3, IH. simpl in Hl. lia. }
  apply (H (List.length l)). lia.
Qed.

Lemma lor_below_pow2 (a b n : N) :
  (a < 2 ^ n -> b < 2 ^ n -> N.lor a b < 2 ^ n)%N.
Proof.
  intros Ha Hb.
  destruct (N.eq_dec (N.lor a b) 0) as [E | E].
  - rewrite E. apply N.neq_0_lt_0. now apply N.pow_nonzero.
  - apply N.log2_lt_pow2; [lia|].
    rewrite N.log2_lor.
    destruct (N.eq_dec a 0) as [-> | Ha0]; destruct (N.eq_dec b 0) as [-> | Hb0].
    + now elim E.
    + rewrite N.max_r by (simpl; lia). apply N.log2_lt_pow2; lia.
    + rewrite N.max_l by (simpl; lia). apply N.log2_lt_pow2; lia.
    + apply N.max_lub_lt; apply N.log2_lt_pow2; lia.
Qed.

Lemma low_bits_shifted (a k n : N) :
  (N.shiftl (N.land a (N.ones k)) n < 2 ^ (k + n))%N.
Proof.
  rewrite N.land_ones, N.shiftl_mul_pow2, N.pow_add_r.
  apply N.mul_lt_mono_pos_r.
  - apply N.neq_0_lt_0. now apply N.pow_nonzero.
  - apply N.mod_lt. now apply N.pow_nonzero.
Qed.

Lemma high_bits (a n m : N) :
  (a < 2 ^ (n + m) -> N.shiftr a n < 2 ^ m)%N.
Proof.
  intros H. rewrite N.shiftr_div_pow2.
  apply N.Div0.div_lt_upper_bound. now rewrite <- N.pow_add_r.
Qed.

Lemma b64_digit_in_alphabet (i : N) :
  (i < 64)%N -> In (b64_digit i) b64_alphabet.
Proof.
  intros H. unfold b64_digit. apply nth_In.
  change (List.length b64_alphabet) with 64. lia.
Qed.

(** The digits the encoder computes from bytes are below 64. *)
Lemma sextet_first (a : N) : (a < 256 -> N.shiftr a 2 < 64)%N.
Proof. intros H. apply (high_bits a 2 6). exact H. Qed.

Lemma sextet_second (a b : N) :
  (b < 256 -> N.lor (N.shiftl (N.land a 3) 4) (N.shiftr b 4) < 64)%N.
Proof.
  intros Hb. apply (lor_below_pow2 _ _ 6).
  - apply (low_bits_shifted a 2 4).
  - apply N.lt_trans with (2 ^ 4)%N; [apply (high_bits b 4 4); exact Hb|].
    reflexivity.
Qed.

Lemma sextet_third (b c : N) :
  (c < 256 -> N.lor (N.shiftl (N.land b 15) 2) (N.shiftr c 6) < 64)%N.
Proof.
  intros Hc. apply (lor_below_pow2 _ _ 6).
  - apply (low_bits_shifted b 4 2).
  - apply N.lt_trans with (2 ^ 2)%N; [apply (high_bits c 6 2); exact Hc|].
    reflexivity.
Qed.

Lemma sextet_last (c : N) : (N.land c 63 < 64)%N.
Proof.
  change 63%N with (N.ones 6). rewrite N.land_ones.
  apply N.mod_lt. discriminate.
Qed.

Ltac digit := apply in_or_app; left; apply b64_digit_in_alphabet.
Ltac pad := apply in_or_app; right; left; reflexivity.

(** X6.  The base64 text of [n] bytes has [4 * k] characters, where [k] is
    the number of groups of three bytes needed to hold [n] bytes, and
    each of them is one of the 64 digits of the alphabet or the padding
    sign: the text is plain ASCII, as the data URL of a request needs. *)
Theorem encode_image_shape (image_bytes : list N) :
  Forall (fun b => (b < 256)%N) image_bytes ->
  (exists k,
      List.length (encode_image image_bytes) = 4 * k
      /\ List.length image_bytes <= 3 * k < List.length image_bytes + 3)
  /\ Forall (fun c => In c (b64_alphabet ++ [61%N])) (encode_image image_bytes).
Proof.
  unfold encode_image.
  induction image_bytes as [|a|a b|a b c r IH] using list_ind3; intros Hbytes.
  - split; [exists 0; simpl; lia | constructor].
  - inversion Hbytes as [|? ? Ha _]; subst.
    split; [exists 1; simpl; lia|].
    apply Forall_cons; [digit; apply sextet_first, Ha|].
    apply Forall_cons; [digit; apply (low_bits_shifted a 2 4)|].
    apply Forall_cons; [pad|]. apply Forall_cons; [pad | constructor].
  - inversion Hbytes as [|? ? Ha Hr]; subst.
    inversion Hr as [|? ? Hb _]; subst.
    split; [exists 1; simpl; lia|].
    apply Forall_cons; [digit; apply sextet_first, Ha|].
    apply Forall_cons; [digit; apply sextet_second, Hb|].
    apply Forall_cons; [digit; apply (low_bits_shifted b 4 2)|].
    apply Forall_cons; [pad | constructor].
  - inversion Hbytes as [|? ? Ha Hr]; subst.
    inversion Hr as [|? ? Hb Hr']; subst.
    inversion Hr' as [|? ? Hc Hrest]; subst.
    destruct (IH Hrest) as [[k [Hlen Hk]] Hall].
    split.
    + exists (S k).
      change (List.length (b64encode (a :: b :: c :: r)))
        with (4 + List.length (b64encode r)).
      rewrite Hlen.
      change (List.length (a :: b :: c :: r)) with (3 + List.length r).
      lia.
    + change (b64encode (a :: b :: c :: r))
        with (b64_digit (N.shiftr a 2)
              :: b64_digit (N.lor (N.shiftl (N.land a 3) 4) (N.shiftr b 4))
              :: b64_digit (N.lor (N.shiftl (N.land b 15) 2) (N.shiftr c 6))
              :: b64_digit (N.land c 63)
              :: b64encode r).
      apply Forall_cons; [digit; apply sextet_first, Ha|].
      apply Forall_cons; [digit; apply sextet_second, Hb|].
      apply Forall_cons; [digit; apply sextet_third, Hc|].
      apply Forall_cons; [digit; apply sextet_last | exact Hall].
Qed.

Lemma encode_image_shape_witness :
  Forall (fun b => (b < 256)%N) (file_value png_file)
  /\ Forall (fun c => In c (b64_alphabet ++ [61%N]))
       (encode_image (file_value png_file)).
Proof.
  assert (H : Forall (fun b => (b < 256)%N) (file_value png_file))
    by (repeat constructor).
  split; [exact H|].
  exact (proj2 (encode_image_shape (file_value png_file) H)).
Defined.

(* ================================================================== *)
(** ** The world after "Process Document" *)
(* ================================================================== *)

Section ProcessDocument.

Variable env : Env.

(** The events of the vision loop do not depend on the world either. *)
Lemma vision_loop_events (sequence : list Descriptor) (base64_img : str) :
  exists out evs,
    no_entry evs
    /\ List.length (filter is_remote evs) <= List.length sequence
    /\ forall w, vision_loop env sequence base64_img w = (Ok out, logged w evs).
Proof.
  induction sequence as [|d rest IH].
  - exists vision_sentinel, []. split; [constructor|]. split; [simpl; lia|].
    intros w. simpl. now rewrite logged_nil.
  - destruct (vision_attempt env d base64_img) as [out|e] eqn:Hd.
    + exists out,
        [Remote (desc_client d) (vision_request (desc_model d) base64_img)].
      split; [repeat constructor|]. split; [simpl; lia|].
      intros w. apply vision_loop_answer. exact Hd.
    + destruct IH as [out [evs [Hq [Hn IH]]]].
      exists out,
        ([Remote (desc_client d) (vision_request (desc_model d) base64_img);
          Toast (vision_failed_notice (desc_name d)) icon_arrows] ++ evs).
      split; [apply no_entry_app; [repeat constructor | exact Hq]|].
      split; [simpl; simpl in Hn; lia|].
      intros w. rewrite (vision_loop_failure env d rest base64_img e w Hd).
      rewrite IH, logged_logged. reflexivity.
Qed.

Lemma extract_text_vision_events (file : UploadedFile) (provider : str) :
  exists out evs,
    no_entry evs
    /\ remote_count evs <= 2
    /\ forall w,
         extract_text_vision env file provider w
         = (Ok out, logged w (Call Fextract_text_vision :: evs)).
Proof.
  destruct (vision_image env file) as [b|e] eqn:Himg.
  - destruct (vision_loop_events (vision_sequence provider) b)
      as [out [evs [Hq [Hn H]]]].
    exists out, evs. split; [exact Hq|]. split.
    + unfold remote_count.
      assert (List.length (vision_sequence provider) = 2)
        by (unfold vision_sequence; now destruct (str_eqb provider _)).
      lia.
    + intros w. rewrite extract_text_vision_unfold, Himg, H, logged_logged.
      reflexivity.
  - exists (lit "Logic Error: " ++ e), []. split; [constructor|].
    split; [unfold remote_count; simpl; lia|].
    intros w. now rewrite extract_text_vision_unfold, Himg.
Qed.

Lemma get_routing_decision_events (file : UploadedFile) :
  exists label evs,
    no_entry evs
    /\ remote_count evs <= 2
    /\ forall w,
         get_routing_decision env file w
         = (Ok label, logged w (Call Fget_routing_decision :: evs)).
Proof.
  destruct (routing_image env file) as [b|e] eqn:Himg.
  - destruct (chat env openai_client (routing_request (lit "gpt-4o-mini") b))
      as [reply|e1] eqn:H1.
    + exists (upper (unicode_upper env) (strip reply)),
        [Remote openai_client (routing_request (lit "gpt-4o-mini") b)].
      split; [repeat constructor|].
      split; [unfold remote_count; simpl; lia|].
      intros w. now rewrite get_routing_decision_run, Himg, H1.
    + eexists.
      exists [Remote openai_client (routing_request (lit "gpt-4o-mini") b);
              Toast (mark_warning ++ lit " GPT failover: Switching to Groq")
                icon_arrows;
              Remote groq_client (routing_request llama_scout b)].
      split; [repeat constructor|].
      split; [unfold remote_count; simpl; lia|].
      intros w. rewrite get_routing_decision_run, Himg, H1. reflexivity.
  - exists (lit "OCR"), []. split; [constructor|].
    split; [unfold remote_count; simpl; lia|].
    intros w. now rewrite get_routing_decision_run, Himg.
Qed.

(** An extraction path returns the same text from every world, logs its
    entry and no other, and the handler stores the text. *)
Lemma extraction_world (file : UploadedFile) (primary : str) (vision : bool) :
  exists t evs,
    no_entry evs
    /\ remote_count evs <= 2
    /\ (vision = false -> evs = [])
    /\ forall w,
         (if vision then
            t <- extract_text_vision env file primary ;;
            set_extracted_text (Some t)
          else
            t <- extract_text_standard env file ;;
            set_extracted_text (Some t)) w
         = (Ok tt,
            with_extracted_text (logged w (Call (path_of vision) :: evs))
              (Some t))
         /\ extraction env file primary vision w
            = (Ok t, logged w (Call (path_of vision) :: evs)).
Proof.
  destruct vision; simpl.
  - destruct (extract_text_vision_events file primary)
      as [t [evs [Hq [Hn H]]]].
    exists t, evs. split; [exact Hq|]. split; [exact Hn|].
    split; [discriminate|].
    intros w. unfold bind. rewrite H. split; reflexivity.
  - eexists. exists []. split; [constructor|].
    split; [unfold remote_count; simpl; lia|]. split; [reflexivity|].
    intros w. unfold bind. rewrite extract_text_standard_run.
    split; reflexivity.
Qed.

(** The post-step: categorization when the stored text is not empty. *)
Lemma categorization_world (primary text : str) (w : World) :
  extracted_text (session w) = Some text ->
  (s <- get_session ;;
   match extracted_text s with
   | Some text =>
       if nonempty text then
         c <- categorize_document env text primary ;;
         set_doc_category c ;;;
         toast (mark_open_folder ++ lit " Detected as: " ++ c) icon_folder
       else ret tt
   | None => ret tt
   end) w
  = (Ok tt, categorized env primary text w).
Proof.
  intros Hx. unfold bind at 1. unfold get_session at 1. cbv iota beta.
  rewrite Hx. unfold categorized. destruct (nonempty text); [|reflexivity].
  unfold bind at 1. rewrite categorize_document_run. reflexivity.
Qed.

(** The whole handler: the summary is cleared, the router runs when
    autonomous routing is on, one extraction path runs and its text is
    stored, then the categorization post-step. *)
Lemma process_document_world (file : UploadedFile) (use_auto : bool)
    (scanning_mode primary : str) :
  exists label route_evs t evs,
    let vision := if use_auto then str_eqb label (lit "VISION")
                  else contains (lit "AI Vision") scanning_mode in
    let pre := if use_auto
               then Call Fget_routing_decision :: route_evs
                    ++ [Toast (lit "AI Router selected: " ++ label ++ lit " mode")
                          icon_robot]
               else [] in
    no_entry route_evs /\ remote_count route_evs <= 2
    /\ no_entry evs /\ remote_count evs <= 2
    /\ (vision = false -> evs = [])
    /\ forall w,
         get_routing_decision env file w
         = (Ok label, logged w (Call Fget_routing_decision :: route_evs))
         /\ extraction env file primary vision w
            = (Ok t, logged w (Call (path_of vision) :: evs))
         /\ process_document env file use_auto scanning_mode primary w
            = (Ok tt,
               categorized env primary t
                 (with_extracted_text
                    (logged (with_summary_result w None)
                       (pre ++ Call (path_of vision) :: evs))
                    (Some t))).
Proof.
  destruct (get_routing_decision_events file)
    as [label [route_evs [Hrq [Hrn Hroute]]]].
  exists label, route_evs.
  destruct (extraction_world file primary
              (if use_auto then str_eqb label (lit "VISION")
               else contains (lit "AI Vision") scanning_mode))
    as [t [evs [Hq [Hn [Hstd Hpath]]]]].
  exists t, evs. cbv zeta.
  split; [exact Hrq|]. split; [exact Hrn|]. split; [exact Hq|].
  split; [exact Hn|]. split; [exact Hstd|].
  intros w. split; [apply Hroute|]. split; [apply Hpath|].
  unfold process_document.
  unfold bind at 1.
  change (set_summary_result None w) with (Ok tt, with_summary_result w None).
  cbv iota beta. unfold bind at 1.
  destruct use_auto.
  - unfold bind at 1. rewrite Hroute. unfold bind at 1.
    unfold toast at 1, emit at 1. cbv iota beta.
    match goal with
    | |- context [if ?b then ?m1 else ?m2] =>
        destruct (Hpath (logged (logged (with_summary_result w None)
                                   (Call Fget_routing_decision :: route_evs))
                           [Toast (lit "AI Router selected: " ++ label
                                   ++ lit " mode") icon_robot]))
          as [Hrun _]
    end.
    fold (logged (logged (with_summary_result w None)
                    (Call Fget_routing_decision :: route_evs))
            [Toast (lit "AI Router selected: " ++ label ++ lit " mode")
               icon_robot]).
    rewrite Hrun. cbv iota beta.
    rewrite (categorization_world primary t) by reflexivity.
    rewrite !logged_logged. simpl app. rewrite <- app_assoc. reflexivity.
  - destruct (Hpath (with_summary_result w None)) as [Hrun _].
    rewrite Hrun. cbv iota beta.
    apply categorization_world. reflexivity.
Qed.

End ProcessDocument.

Lemma categorized_session (env : Env) (primary t : str) (w : World) :
  session (categorized env primary t w)
  = session (if nonempty t
             then with_doc_category w (category_label env t primary)
             else w).
Proof. unfold categorized. now destruct (nonempty t). Qed.

Lemma categorized_log (env : Env) (primary t : str) (w : World) :
  log (categorized env primary t w)
  = log w
    ++ (if nonempty t
        then [Call Fcategorize_document;
              Remote (categorize_client primary) (categorize_request t primary);
              Toast (mark_open_folder ++ lit " Detected as: "
                     ++ category_label env t primary) icon_folder]
        else []).
Proof.
  unfold categorized. destruct (nonempty t); simpl.
  - now rewrite <- app_assoc.
  - now rewrite app_nil_r.
Qed.

Lemma remote_count_cons (e : Event) (l : list Event) :
  remote_count (e :: l) = (if is_remote e then 1 else 0) + remote_count l.
Proof. unfold remote_count. simpl. now destruct (is_remote e). Qed.

(** X7.  "Process Document" never raises and replaces the state of the
    session in one go: afterwards there is no summary, the extracted text is
    the text that one of the two extraction functions returns for the file,
    and the category is the label of that text when the text is not empty
    and the old category otherwise. *)
Theorem process_document_replaces_state
    (env : Env) (file : UploadedFile) (use_auto : bool)
    (scanning_mode primary : str) (w : World) :
  exists t,
    fst (process_document env file use_auto scanning_mode primary w) = Ok tt
    /\ (fst (extract_text_vision env file primary w) = Ok t
        \/ fst (extract_text_standard env file w) = Ok t)
    /\ summary_result
         (session (snd (process_document env file use_auto scanning_mode
                          primary w)))
       = None
    /\ extracted_text
         (session (snd (process_document env file use_auto scanning_mode
                          primary w)))
       = Some t
    /\ doc_category
         (session (snd (process_document env file use_auto scanning_mode
                          primary w)))
       = if nonempty t then category_label env t primary
         else doc_category (session w).
Proof.
  destruct (process_document_world env file use_auto scanning_mode primary)
    as [label [route_evs [t [evs [_ [_ [_ [_ [_ H]]]]]]]]].
  destruct (H w) as [_ [Hext Hrun]]. exists t.
  rewrite Hrun. cbn [fst snd]. rewrite categorized_session.
  split; [reflexivity|]. split.
  - unfold extraction in Hext.
    destruct (if use_auto then str_eqb label (lit "VISION")
              else contains (lit "AI Vision") scanning_mode);
      rewrite Hext; auto.
  - destruct (nonempty t); simpl; auto.
Qed.

(** X8.  With autonomous routing off and a manual mode other than the
    vision one, "Process Document" sends no image to any provider: the only
    remote call it can make is the categorization call, which carries text
    only, and it makes none when the extracted text is empty. *)
Theorem manual_standard_sends_no_image
    (env : Env) (file : UploadedFile) (scanning_mode primary : str) (w : World) :
  contains (lit "AI Vision") scanning_mode = false ->
  exists t evs,
    fst (extract_text_standard env file w) = Ok t
    /\ log (snd (process_document env file false scanning_mode primary w))
       = log w ++ evs
    /\ Forall sends_no_image evs
    /\ remote_count evs = (if nonempty t then 1 else 0).
Proof.
  intros Hmode.
  destruct (process_document_world env file false scanning_mode primary)
    as [label [route_evs [t [evs [_ [_ [_ [_ [Hstd H]]]]]]]]].
  cbv zeta in Hstd, H. rewrite Hmode in Hstd, H.
  rewrite (Hstd eq_refl) in H.
  destruct (H w) as [_ [Hext Hrun]]. exists t.
  eexists. split; [unfold extraction in Hext; now rewrite Hext|]. split.
  - rewrite Hrun. cbn [fst snd]. rewrite categorized_log. simpl.
    rewrite <- app_assoc. reflexivity.
  - destruct (nonempty t); split; try (repeat constructor); reflexivity.
Qed.

Lemma manual_standard_sends_no_image_witness :
  contains (lit "AI Vision") mode_standard = false
  /\ exists t evs,
       fst (extract_text_standard env_scenario png_file fresh_world) = Ok t
       /\ log (snd (process_document env_scenario png_file false mode_standard
                      (lit "GPT-4o") fresh_world))
          = log fresh_world ++ evs
       /\ Forall sends_no_image evs
       /\ remote_count evs = (if nonempty t then 1 else 0).
Proof.
  split; [reflexivity|].
  exact (manual_standard_sends_no_image env_scenario png_file mode_standard
           (lit "GPT-4o") fresh_world eq_refl).
Defined.

(** X9.  "Process Document" makes at most five remote calls (two by the
    router, two by the vision path, one for the category), and at most
    three when autonomous routing is off. *)
Theorem process_document_call_budget
    (env : Env) (file : UploadedFile) (use_auto : bool)
    (scanning_mode primary : str) (w : World) :
  remote_count
    (log (snd (process_document env file use_auto scanning_mode primary w)))
  <= remote_count (log w) + (if use_auto then 5 else 3).
Proof.
  destruct (process_document_world env file use_auto scanning_mode primary)
    as [label [route_evs [t [evs [_ [Hrn [_ [Hn [_ H]]]]]]]]].
  destruct (H w) as [_ [_ Hrun]]. rewrite Hrun. cbn [fst snd].
  rewrite categorized_log.
  assert (Hcat : remote_count
                   (if nonempty t
                    then [Call Fcategorize_document;
                          Remote (categorize_client primary)
                            (categorize_request t primary);
                          Toast (mark_open_folder ++ lit " Detected as: "
                                 ++ category_label env t primary) icon_folder]
                    else []) <= 1)
    by (destruct (nonempty t); unfold remote_count; simpl; lia).
  rewrite remote_count_app.
  destruct use_auto; cbv zeta iota; simpl log;
    repeat (rewrite remote_count_app || rewrite remote_count_cons);
    simpl is_remote; cbv iota;
    change (remote_count []) with 0; lia.
Qed.

Lemma not_in_app (x : N) (a b : str) : ~ In x a -> ~ In x b -> ~ In x (a ++ b).
Proof. intros Ha Hb H. apply in_app_or in H as [H | H]; auto. Qed.

Lemma summarize_now_keeps_category
    (env : Env) (summary_type primary language : str) (w : World) :
  doc_category (session (snd (summarize_now env summary_type primary language w)))
  = doc_category (session w).
Proof.
  unfold summarize_now. unfold bind at 1. unfold get_session at 1.
  cbv iota beta.
  destruct (extracted_text (session w)) as [text|]; [|reflexivity].
  destruct (nonempty text && negb (contains (lit "Customized Prompt") summary_type));
    [|reflexivity].
  unfold bind at 1.
  change (set_failover_active false w) with (Ok tt, flagged w false).
  cbv iota beta. unfold bind at 1.
  destruct (summarize_text_effect env text summary_type primary language
              (flagged w false)) as [out [evs H]].
  rewrite H. simpl. now destruct (primary_failed env primary _).
Qed.

Lemma send_instructions_keeps_category
    (env : Env) (summary_type user_input primary language : str) (w : World) :
  doc_category
    (session (snd (send_instructions env summary_type user_input primary
                     language w)))
  = doc_category (session w).
Proof.
  unfold send_instructions. unfold bind at 1. unfold get_session at 1.
  cbv iota beta.
  destruct (extracted_text (session w)) as [text|]; [|reflexivity].
  destruct (nonempty text && contains (lit "Customized Prompt") summary_type
            && nonempty user_input); [|reflexivity].
  unfold bind at 1.
  change (set_failover_active false w) with (Ok tt, flagged w false).
  cbv iota beta. unfold bind at 1.
  destruct (summarize_text_effect env text user_input primary language
              (flagged w false)) as [out [evs H]].
  rewrite H. simpl. now destruct (primary_failed env primary _).
Qed.

Lemma process_document_category
    (env : Env) (file : UploadedFile) (use_auto : bool)
    (scanning_mode primary : str) (w : World) :
  exists t,
    doc_category
      (session (snd (process_document env file use_auto scanning_mode primary w)))
    = if nonempty t then category_label env t primary
      else doc_category (session w).
Proof.
  destruct (process_document_world env file use_auto scanning_mode primary)
    as [label [route_evs [t [evs [_ [_ [_ [_ [_ H]]]]]]]]].
  destruct (H w) as [_ [_ Hrun]]. exists t.
  rewrite Hrun. cbn [fst snd]. rewrite categorized_session.
  now destruct (nonempty t).
Qed.

(** X10.  The file name of the download never contains a space: when the
    category holds no space before a handler runs, the file name built from
    the session after "Process Document", "Summarize Now" or "Send
    Instructions" holds none.  The initial category, Summary, holds none. *)
Theorem download_filename_has_no_space
    (env : Env) (primary language : str) (w : World) :
  ~ In 32%N (doc_category (session w)) ->
  (forall (file : UploadedFile) (use_auto : bool) (scanning_mode : str),
      ~ In 32%N
          (download_filename
             (session (snd (process_document env file use_auto scanning_mode
                              primary w)))))
  /\ (forall summary_type : str,
        ~ In 32%N
            (download_filename
               (session (snd (summarize_now env summary_type primary language w)))))
  /\ (forall summary_type user_input : str,
        ~ In 32%N
            (download_filename
               (session (snd (send_instructions env summary_type user_input
                                primary language w)))))
  /\ ~ In 32%N (download_filename initial_session).
Proof.
  intros Hw.
  assert (Hsuffix : ~ In 32%N (lit "_Summary.pdf"))
    by (vm_compute; intuition discriminate).
  unfold download_filename. repeat split.
  - intros file use_auto scanning_mode.
    destruct (process_document_category env file use_auto
                scanning_mode primary w) as [t Hcat].
    rewrite Hcat. apply not_in_app; [|exact Hsuffix].
    destruct (nonempty t); [apply category_label_no_space | exact Hw].
  - intros summary_type. rewrite summarize_now_keeps_category.
    now apply not_in_app.
  - intros summary_type user_input. rewrite send_instructions_keeps_category.
    now apply not_in_app.
  - vm_compute. intuition discriminate.
Qed.

Lemma download_filename_has_no_space_witness :
  ~ In 32%N (doc_category (session fresh_world))
  /\ ~ In 32%N
       (download_filename
          (session (snd (process_document env_two_words png_file false
                           mode_standard (lit "Groq") fresh_world)))).
Proof.
  assert (H : ~ In 32%N (doc_category (session fresh_world)))
    by (vm_compute; intuition discriminate).
  split; [exact H|].
  exact (proj1 (download_filename_has_no_space env_two_words (lit "Groq")
                  (lit "English") fresh_world H)
           png_file false mode_standard).
Defined.

(* ================================================================== *)
(** ** When the providers are down, and when they answer *)
(* ================================================================== *)

(** X11.  With every provider failing, "Process Document" under autonomous
    routing still extracts the text locally: the router falls back to OCR,
    the vision path is not entered, the extracted text is what the standard
    path returns, and a non-empty text gets the category Document. *)
Theorem offline_processing_is_local
    (env : Env) (file : UploadedFile) (scanning_mode primary : str) (w : World) :
  (forall c r, failed (chat env c r) = true) ->
  exists t,
    fst (extract_text_standard env file w) = Ok t
    /\ fst (process_document env file true scanning_mode primary w) = Ok tt
    /\ extracted_text
         (session (snd (process_document env file true scanning_mode primary w)))
       = Some t
    /\ call_count Fextract_text_vision
         (log (snd (process_document env file true scanning_mode primary w)))
       = call_count Fextract_text_vision (log w)
    /\ doc_category
         (session (snd (process_document env file true scanning_mode primary w)))
       = if nonempty t then lit "Document" else doc_category (session w).
Proof.
  intros Hdown.
  destruct (process_document_world env file true scanning_mode primary)
    as [label [route_evs [t [evs [Hrq [_ [Hq [_ [Hstd H]]]]]]]]].
  cbv zeta in Hstd, H.
  assert (Hlabel : label = lit "OCR").
  { destruct (H w) as [Hroute _].
    rewrite get_routing_decision_run in Hroute.
    destruct (routing_image env file) as [b|e]; [|congruence].
    pose proof (Hdown openai_client (routing_request (lit "gpt-4o-mini") b)) as H1.
    pose proof (Hdown groq_client (routing_request llama_scout b)) as H2.
    destruct (chat env openai_client _); [discriminate H1|].
    destruct (chat env groq_client _); [discriminate H2|].
    congruence. }
  subst label.
  change (str_eqb (lit "OCR") (lit "VISION")) with false in Hstd, H.
  destruct (H w) as [_ [Hext Hrun]]. exists t.
  unfold extraction in Hext. rewrite Hext, Hrun. cbn [fst snd].
  rewrite categorized_session, categorized_log.
  split; [reflexivity|]. split; [reflexivity|]. split.
  { now destruct (nonempty t). }
  split.
  - simpl log. rewrite (Hstd eq_refl).
    repeat (rewrite call_count_app || rewrite call_count_cons).
    rewrite (no_entry_call_count _ route_evs Hrq).
    destruct (nonempty t); unfold call_count, path_of; simpl; lia.
  - assert (Hcat : category_label env t primary = lit "Document").
    { unfold category_label.
      pose proof (Hdown (categorize_client primary)
                    (categorize_request t primary)) as Hc.
      destruct (chat env _ _); [discriminate Hc | reflexivity]. }
    destruct (nonempty t); simpl; [exact Hcat | reflexivity].
Qed.

Lemma offline_processing_is_local_witness :
  (forall c r, failed (chat env_offline c r) = true)
  /\ extracted_text
       (session (snd (process_document env_offline png_file true mode_vision
                        (lit "GPT-4o") fresh_world)))
     = Some invoice_text.
Proof.
  assert (Hdown : forall c r, failed (chat env_offline c r) = true)
    by (intros c r; reflexivity).
  split; [exact Hdown|].
  destruct (offline_processing_is_local env_offline png_file mode_vision
              (lit "GPT-4o") fresh_world Hdown) as [t [Ht [_ [Hx _]]]].
  rewrite Hx. f_equal.
  assert (E : Ok t = Ok invoice_text) by (rewrite <- Ht; reflexivity).
  now inversion E.
Defined.

(** X12.  The router leaves the session alone and contacts at most two
    providers.  It contacts nobody when the image cannot be prepared, and
    only OpenAI when OpenAI answers: Groq is called, after a toast, only
    when the call to OpenAI failed. *)
Theorem routing_decision_effects (env : Env) (file : UploadedFile) (w : World) :
  session (snd (get_routing_decision env file w)) = session w
  /\ remote_count (log (snd (get_routing_decision env file w)))
     <= remote_count (log w) + 2
  /\ (forall e,
        routing_image env file = Raise e ->
        log (snd (get_routing_decision env file w))
        = log w ++ [Call Fget_routing_decision])
  /\ (forall b reply,
        routing_image env file = Ok b ->
        chat env openai_client (routing_request (lit "gpt-4o-mini") b) = Ok reply ->
        log (snd (get_routing_decision env file w))
        = log w ++ [Call Fget_routing_decision;
                    Remote openai_client (routing_request (lit "gpt-4o-mini") b)])
  /\ (forall b e,
        routing_image env file = Ok b ->
        chat env openai_client (routing_request (lit "gpt-4o-mini") b) = Raise e ->
        log (snd (get_routing_decision env file w))
        = log w ++ [Call Fget_routing_decision;
                    Remote openai_client (routing_request (lit "gpt-4o-mini") b);
                    Toast (mark_warning ++ lit " GPT failover: Switching to Groq")
                      icon_arrows;
                    Remote groq_client (routing_request llama_scout b)]).
Proof.
  destruct (get_routing_decision_events env file)
    as [label [evs [_ [Hn H]]]].
  split; [now rewrite H|]. split.
  { rewrite H. simpl. rewrite remote_count_app, remote_count_cons. simpl. lia. }
  rewrite get_routing_decision_run. repeat split.
  - intros e He. now rewrite He.
  - intros b reply Hb H1. now rewrite Hb, H1.
  - intros b e Hb H1. now rewrite Hb, H1.
Qed.

(** X13.  In the vision path too the first answer wins: when the image is
    prepared and the first provider of the sequence answers, the answer is
    returned, the second provider is not called, nothing is toasted and the
    session is unchanged. *)
Theorem vision_first_answer_wins
    (env : Env) (file : UploadedFile) (provider : str) (w : World)
    (d1 d2 : Descriptor) (base64_img out : str) :
  vision_sequence provider = [d1; d2] ->
  vision_image env file = Ok base64_img ->
  vision_attempt env d1 base64_img = Ok out ->
  extract_text_vision env file provider w
  = (Ok out,
     logged w [Call Fextract_text_vision;
               Remote (desc_client d1)
                 (vision_request (desc_model d1) base64_img)]).
Proof.
  intros Hseq Himg H1.
  rewrite extract_text_vision_unfold, Himg, Hseq.
  rewrite (vision_loop_answer env d1 [d2] base64_img out _ H1).
  now rewrite logged_logged.
Qed.

Lemma vision_first_answer_wins_witness :
  vision_sequence (lit "Groq") = [groq_scout; gpt4o]
  /\ vision_image env_vision_failover png_file = Ok (lit "iVBORw==")
  /\ vision_attempt env_vision_failover groq_scout (lit "iVBORw==")
     = Ok invoice_text
  /\ extract_text_vision env_vision_failover png_file (lit "Groq") fresh_world
     = (Ok invoice_text,
        logged fresh_world
          [Call Fextract_text_vision;
           Remote (desc_client groq_scout)
             (vision_request (desc_model groq_scout) (lit "iVBORw=="))]).
Proof.
  split; [reflexivity|]. split; [reflexivity|]. split; [reflexivity|].
  exact (vision_first_answer_wins env_vision_failover png_file (lit "Groq")
           fresh_world groq_scout gpt4o (lit "iVBORw==") invoice_text
           eq_refl eq_refl eq_refl).
Defined.

(** X14.  Under autonomous routing, with the image prepared and OpenAI
    answering, the reply alone decides the path: the vision path is entered
    once when the reply, stripped and uppercased, is VISION, and not at all
    otherwise. *)
Theorem reply_decides_path
    (env : Env) (file : UploadedFile) (scanning_mode primary : str) (w : World)
    (base64_img reply : str) :
  routing_image env file = Ok base64_img ->
  chat env openai_client (routing_request (lit "gpt-4o-mini") base64_img)
  = Ok reply ->
  call_count Fextract_text_vision
    (log (snd (process_document env file true scanning_mode primary w)))
  = call_count Fextract_text_vision (log w)
    + (if str_eqb (upper (unicode_upper env) (strip reply)) (lit "VISION")
       then 1 else 0).
Proof.
  intros Himg Hreply.
  destruct (process_document_world env file true scanning_mode primary)
    as [label [route_evs [t [evs [Hrq [_ [Hq [_ [_ H]]]]]]]]].
  cbv zeta in H. destruct (H w) as [Hroute [_ Hrun]].
  rewrite get_routing_decision_run, Himg, Hreply in Hroute.
  assert (Hlabel : label = upper (unicode_upper env) (strip reply))
    by congruence.
  rewrite Hrun. cbn [fst snd]. rewrite categorized_log. simpl log.
  repeat (rewrite call_count_app || rewrite call_count_cons).
  rewrite (no_entry_call_count _ route_evs Hrq), (no_entry_call_count _ evs Hq).
  rewrite <- Hlabel.
  destruct (str_eqb label (lit "VISION")); destruct (nonempty t);
    unfold call_count, path_of; simpl; lia.
Qed.

Lemma reply_decides_path_witness :
  routing_image env_router_vision png_file = Ok (lit "AA==")
  /\ chat env_router_vision openai_client
       (routing_request (lit "gpt-4o-mini") (lit "AA=="))
     = Ok (lit " vision ")
  /\ call_count Fextract_text_vision
       (log (snd (process_document env_router_vision png_file true
                    mode_standard (lit "GPT-4o") fresh_world)))
     = 1.
Proof.
  split; [reflexivity|]. split; [reflexivity|].
  exact (reply_decides_path env_router_vision png_file mode_standard
           (lit "GPT-4o") fresh_world (lit "AA==") (lit " vision ")
           eq_refl eq_refl).
Defined.

Lemma vision_loop_same_chat (env env' : Env) (sequence : list Descriptor)
    (base64_img : str) (w : World) :
  chat env' = chat env ->
  vision_loop env' sequence base64_img w = vision_loop env sequence base64_img w.
Proof.
  intros Hchat. revert w.
  induction sequence as [|[[name client] model_id] rest IH]; intros w;
    [reflexivity|].
  simpl. unfold try_except, remote, bind, emit, lift, toast. simpl.
  rewrite Hchat. destruct (chat env client _); [reflexivity|]. apply IH.
Qed.

(** X15.  Of a PDF the vision path uses the first page only: whatever pages
    follow the first, the run is the run on the PDF of the first page alone.
    A PDF without pages gives the Logic-Error text of the index error, and
    no provider is called. *)
Theorem vision_path_reads_first_page
    (env : Env) (file : UploadedFile) (provider : str) (w : World) :
  file_type file = pdf_mime ->
  (forall (img : Image env) (rest : list (Image env)),
      extract_text_vision (with_pages env (img :: rest)) file provider w
      = extract_text_vision (with_pages env [img]) file provider w)
  /\ extract_text_vision (with_pages env []) file provider w
     = (Ok (lit "Logic Error: list index out of range"),
        logged w [Call Fextract_text_vision]).
Proof.
  intros Hpdf. split.
  - intros img rest. rewrite !extract_text_vision_unfold. unfold vision_image.
    rewrite Hpdf, str_eqb_refl. simpl.
    destruct (save_jpeg env img) as [jpeg|e]; [|reflexivity]. simpl.
    now rewrite (vision_loop_same_chat (with_pages env [img])
                   (with_pages env (img :: rest))).
  - rewrite extract_text_vision_unfold. unfold vision_image.
    now rewrite Hpdf, str_eqb_refl.
Qed.

Lemma vision_path_reads_first_page_witness :
  file_type pdf_file = pdf_mime
  /\ extract_text_vision (with_pages env_two_page_vision [1%N; 2%N]) pdf_file
       (lit "Groq") fresh_world
     = extract_text_vision (with_pages env_two_page_vision [1%N]) pdf_file
         (lit "Groq") fresh_world
  /\ extract_text_standard (with_pages env_two_page_vision [1%N; 2%N]) pdf_file
       fresh_world
     <> extract_text_standard (with_pages env_two_page_vision [1%N]) pdf_file
          fresh_world.
Proof.
  split; [reflexivity|]. split.
  - exact (proj1 (vision_path_reads_first_page env_two_page_vision pdf_file
                    (lit "Groq") fresh_world eq_refl) 1%N [2%N]).
  - vm_compute. discriminate.
Defined.

(** X16.  An upload that is not a PDF is never decoded by the vision path:
    its bytes are sent as they are, so the preparation cannot fail, the
    result is never a Logic-Error text of the preparation, and the primary
    provider is always called. *)
Theorem vision_path_sends_image_as_is
    (env : Env) (file : UploadedFile) (provider : str) (w : World) :
  str_eqb (file_type file) pdf_mime = false ->
  vision_image env file = Ok (encode_image (file_value file))
  /\ exists d1 d2 out evs,
       vision_sequence provider = [d1; d2]
       /\ extract_text_vision env file provider w
          = (Ok out,
             logged w
               (Call Fextract_text_vision
                :: Remote (desc_client d1)
                     (vision_request (desc_model d1)
                        (encode_image (file_value file)))
                :: evs)).
Proof.
  intros Hnot.
  assert (Himg : vision_image env file = Ok (encode_image (file_value file)))
    by (unfold vision_image; now rewrite Hnot).
  split; [exact Himg|].
  assert (Hseq : exists d1 d2, vision_sequence provider = [d1; d2])
    by (unfold vision_sequence; destruct (str_eqb provider _); eauto).
  destruct Hseq as [d1 [d2 Hseq]]. exists d1, d2.
  rewrite extract_text_vision_unfold, Himg, Hseq.
  destruct (vision_attempt env d1 (encode_image (file_value file)))
    as [out|e] eqn:H1.
  - exists out, []. split; [reflexivity|].
    rewrite (vision_loop_answer env d1 [d2] _ out _ H1).
    now rewrite logged_logged.
  - rewrite (vision_loop_failure env d1 [d2] _ e _ H1), logged_logged.
    destruct (vision_loop_events env [d2] (encode_image (file_value file)))
      as [out [evs [_ [_ H]]]].
    exists out. eexists. split; [reflexivity|].
    rewrite H, logged_logged. reflexivity.
Qed.

Lemma vision_path_sends_image_as_is_witness :
  str_eqb (file_type png_file) pdf_mime = false
  /\ vision_image env_corrupt_pdf png_file
     = Ok (encode_image (file_value png_file)).
Proof.
  split; [reflexivity|].
  exact (proj1 (vision_path_sends_image_as_is env_corrupt_pdf png_file
                  (lit "GPT-4o") fresh_world eq_refl)).
Defined.

(* ================================================================== *)
(** ** The summarization handlers and the result block *)
(* ================================================================== *)

(** The answer and the events of [summarize_text] do not depend on the
    world: after the entry, one remote call when the primary attempt
    answers and two when it fails. *)
Lemma summarize_text_events
    (env : Env) (text summary_type primary language : str) :
  exists out evs,
    remote_count evs
    = (if primary_failed env primary
            (summarize_prompt text summary_type language)
       then 2 else 1)
    /\ forall w,
         summarize_text env text summary_type primary language w
         = (Ok out,
            logged (flagged w
                      (primary_failed env primary
                         (summarize_prompt text summary_type language)
                       || failover_active (session w)))
              (Call Fsummarize_text :: evs)).
Proof.
  destruct (summarize_sequence_two primary) as [d1 [d2 Hseq]].
  unfold primary_failed. rewrite Hseq.
  destruct (summarize_attempt env d1 _) as [out|e1] eqn:H1.
  - exists out,
      [Remote (desc_client d1)
         (summarize_request (desc_model d1)
            (summarize_prompt text summary_type language))].
    split; [reflexivity|].
    intros w. rewrite summarize_text_unfold, Hseq.
    rewrite (summarize_loop_answer env 0 d1 [d2] _ _ _ H1), logged_logged.
    simpl. destruct w as [[sr et dc fa] l]. reflexivity.
  - destruct (summarize_attempt env d2 (summarize_prompt text summary_type language))
      as [out|e2] eqn:H2.
    + exists out,
        [Remote (desc_client d1)
           (summarize_request (desc_model d1)
              (summarize_prompt text summary_type language));
         Remote (desc_client d2)
           (summarize_request (desc_model d2)
              (summarize_prompt text summary_type language))].
      split; [reflexivity|].
      intros w. rewrite summarize_text_unfold, Hseq.
      rewrite (summarize_loop_failure env 0 d1 [d2] _ _ _ H1).
      rewrite (summarize_loop_answer env 1 d2 [] _ _ _ H2).
      simpl Nat.eqb. cbv iota.
      rewrite flagged_logged, !logged_logged. reflexivity.
    + exists summarize_sentinel,
        [Remote (desc_client d1)
           (summarize_request (desc_model d1)
              (summarize_prompt text summary_type language));
         Remote (desc_client d2)
           (summarize_request (desc_model d2)
              (summarize_prompt text summary_type language))].
      split; [reflexivity|].
      intros w. rewrite summarize_text_unfold, Hseq.
      rewrite (summarize_loop_failure env 0 d1 [d2] _ _ _ H1).
      rewrite (summarize_loop_failure env 1 d2 [] _ _ _ H2).
      rewrite summarize_loop_nil.
      simpl Nat.eqb. cbv iota.
      rewrite flagged_logged, !logged_logged. reflexivity.
Qed.

(** "Summarize Now", when it fires: reset, summarize, store. *)
Lemma summarize_now_fires
    (env : Env) (summary_type primary language text : str) (w : World) :
  extracted_text (session w) = Some text ->
  nonempty text = true ->
  contains (lit "Customized Prompt") summary_type = false ->
  summarize_now env summary_type primary language w
  = match summarize_text env text summary_type primary language
            (flagged w false) with
    | (Ok r, w1) => (Ok tt, with_summary_result w1 (Some r))
    | (Raise e, w1) => (Raise e, w1)
    end.
Proof.
  intros Hx Hne Hstyle.
  unfold summarize_now. unfold bind at 1. unfold get_session at 1.
  cbv iota beta. rewrite Hx, Hne, Hstyle. cbn [negb andb].
  unfold bind at 1.
  change (set_failover_active false w) with (Ok tt, flagged w false).
  cbv iota beta. unfold bind at 1.
  destruct (summarize_text env text summary_type primary language
              (flagged w false)) as [[r|e] w1]; reflexivity.
Qed.

(** X17.  When "Summarize Now" fires, it never raises and stores what
    [summarize_text] returns as the summary, keeps the extracted text and
    the category, leaves in the flag whether the primary attempt failed, and
    makes exactly one remote call when the primary attempt answered and
    exactly two when it failed.  The primary attempt is the call to OpenAI
    with gpt-4o when the primary is GPT-4o and the call to Groq with
    llama-3.3-70b-versatile otherwise. *)
Theorem summarize_now_stores_result
    (env : Env) (summary_type primary language text : str) (w : World) :
  extracted_text (session w) = Some text ->
  nonempty text = true ->
  contains (lit "Customized Prompt") summary_type = false ->
  exists r,
    fst (summarize_text env text summary_type primary language w) = Ok r
    /\ fst (summarize_now env summary_type primary language w) = Ok tt
    /\ session (snd (summarize_now env summary_type primary language w))
       = {| summary_result := Some r;
            extracted_text := Some text;
            doc_category := doc_category (session w);
            failover_active :=
              failed (primary_attempt env primary
                        (summarize_prompt text summary_type language)) |}
    /\ remote_count (log (snd (summarize_now env summary_type primary
                                  language w)))
       = remote_count (log w)
         + (if failed (primary_attempt env primary
                         (summarize_prompt text summary_type language))
            then 2 else 1).
Proof.
  intros Hx Hne Hstyle.
  destruct (summarize_text_events env text summary_type primary language)
    as [r [evs [Hn H]]].
  rewrite primary_failed_is_primary_attempt in Hn.
  exists r. split; [now rewrite H|].
  rewrite (summarize_now_fires env summary_type primary language text w
             Hx Hne Hstyle), H.
  cbn [fst snd]. simpl session. simpl log.
  rewrite Hx, orb_false_r, primary_failed_is_primary_attempt.
  split; [reflexivity|]. split; [reflexivity|].
  rewrite remote_count_app, remote_count_cons. simpl is_remote. cbv iota.
  rewrite Hn. lia.
Qed.

Lemma summarize_now_stores_result_witness :
  extracted_text (session (world_with_text invoice_text true)) = Some invoice_text
  /\ nonempty invoice_text = true
  /\ contains (lit "Customized Prompt") (lit "Short Summary") = false
  /\ failed (primary_attempt env_primary_down (lit "GPT-4o")
               (summarize_prompt invoice_text (lit "Short Summary")
                  (lit "English")))
     = true
  /\ exists r,
       fst (summarize_text env_primary_down invoice_text (lit "Short Summary")
              (lit "GPT-4o") (lit "English") (world_with_text invoice_text true))
       = Ok r
       /\ fst (summarize_now env_primary_down (lit "Short Summary")
                 (lit "GPT-4o") (lit "English")
                 (world_with_text invoice_text true))
          = Ok tt
       /\ remote_count
            (log (snd (summarize_now env_primary_down (lit "Short Summary")
                         (lit "GPT-4o") (lit "English")
                         (world_with_text invoice_text true))))
          = 2.
Proof.
  split; [reflexivity|]. split; [reflexivity|]. split; [reflexivity|].
  split; [reflexivity|].
  destruct (summarize_now_stores_result env_primary_down (lit "Short Summary")
              (lit "GPT-4o") (lit "English") invoice_text
              (world_with_text invoice_text true) eq_refl eq_refl eq_refl)
    as [r [H1 [H2 [_ H3]]]].
  exists r. split; [exact H1|]. split; [exact H2 | exact H3].
Defined.

Lemma story_of_sentinel :
  story summarize_sentinel
  = [report_title; report_spacer;
     {| para_text := summarize_sentinel; para_style := Normal |}].
Proof. reflexivity. Qed.

(** X18.  When every provider fails, "Summarize Now" still leaves a
    summary: the fixed all-providers-failed string.  The failover warning is
    then displayed, and the result block offers a report whose only
    paragraph is that string, under the file name of the category; a failure
    of the document builder is the one thing that is let through. *)
Theorem total_failure_is_reported
    (env : Env) (summary_type primary language text : str) (w : World) :
  extracted_text (session w) = Some text ->
  nonempty text = true ->
  contains (lit "Customized Prompt") summary_type = false ->
  (forall c r, failed (chat env c r) = true) ->
  summary_result
    (session (snd (summarize_now env summary_type primary language w)))
  = Some summarize_sentinel
  /\ failover_warning_shown
       (session (snd (summarize_now env summary_type primary language w)))
     = true
  /\ fst (result_block env
            (snd (summarize_now env summary_type primary language w)))
     = match doc_build env
               [report_title; report_spacer;
                {| para_text := summarize_sentinel; para_style := Normal |}]
       with
       | Ok pdf => Ok (Some (pdf, doc_category (session w) ++ lit "_Summary.pdf"))
       | Raise e => Raise e
       end.
Proof.
  intros Hx Hne Hstyle Hdown.
  destruct (summarize_sequence_two primary) as [d1 [d2 Hseq]].
  assert (H1 : exists e1, summarize_attempt env d1
                            (summarize_prompt text summary_type language)
                          = Raise e1).
  { unfold summarize_attempt.
    pose proof (Hdown (desc_client d1)
                  (summarize_request (desc_model d1)
                     (summarize_prompt text summary_type language))) as H.
    destruct (chat env _ _); [discriminate H | eauto]. }
  assert (H2 : exists e2, summarize_attempt env d2
                            (summarize_prompt text summary_type language)
                          = Raise e2).
  { unfold summarize_attempt.
    pose proof (Hdown (desc_client d2)
                  (summarize_request (desc_model d2)
                     (summarize_prompt text summary_type language))) as H.
    destruct (chat env _ _); [discriminate H | eauto]. }
  destruct H1 as [e1 H1]. destruct H2 as [e2 H2].
  rewrite (summarize_now_fires env summary_type primary language text w
             Hx Hne Hstyle).
  rewrite summarize_text_unfold, Hseq.
  rewrite (summarize_loop_failure env 0 d1 [d2] _ _ _ H1).
  rewrite (summarize_loop_failure env 1 d2 [] _ _ _ H2).
  rewrite summarize_loop_nil. cbv iota beta. cbn [fst snd].
  split; [reflexivity|]. split.
  - unfold failover_warning_shown. simpl. now rewrite Hx, Hne.
  - unfold result_block, bind, get_session, generate_pdf, emit, lift, ret.
    simpl. rewrite story_of_sentinel.
    destruct (doc_build env _); reflexivity.
Qed.

Lemma total_failure_is_reported_witness :
  extracted_text (session (world_with_text invoice_text false))
  = Some invoice_text
  /\ nonempty invoice_text = true
  /\ contains (lit "Customized Prompt") (lit "Bullet Points") = false
  /\ (forall c r, failed (chat env_all_down c r) = true)
  /\ summary_result
       (session (snd (summarize_now env_all_down (lit "Bullet Points")
                        (lit "Groq") (lit "Hindi")
                        (world_with_text invoice_text false))))
     = Some summarize_sentinel.
Proof.
  assert (Hdown : forall c r, failed (chat env_all_down c r) = true)
    by (intros c r; reflexivity).
  split; [reflexivity|]. split; [reflexivity|]. split; [reflexivity|].
  split; [exact Hdown|].
  exact (proj1 (total_failure_is_reported env_all_down (lit "Bullet Points")
                  (lit "Groq") (lit "Hindi") invoice_text
                  (world_with_text invoice_text false)
                  eq_refl eq_refl eq_refl Hdown)).
Defined.

(** X19.  A free-form instruction takes the same road as a preset: with the
    custom style selected, "Send Instructions" with a non-empty instruction
    that does not itself contain the words Customized Prompt runs exactly as
    "Summarize Now" would with that instruction as its style.  With an empty
    instruction it does nothing at all: no reset of the flag, no call. *)
Theorem send_instructions_is_summarize_now
    (env : Env) (summary_type user_input primary language : str) (w : World) :
  contains (lit "Customized Prompt") summary_type = true ->
  (nonempty user_input = true ->
   contains (lit "Customized Prompt") user_input = false ->
   send_instructions env summary_type user_input primary language w
   = summarize_now env user_input primary language w)
  /\ send_instructions env summary_type [] primary language w = (Ok tt, w).
Proof.
  intros Hstyle. split.
  - intros Hne Hinput.
    unfold send_instructions, summarize_now, bind, get_session.
    cbv iota beta.
    destruct (extracted_text (session w)) as [text|]; [|reflexivity].
    rewrite Hstyle, Hne, Hinput. cbn [negb]. now rewrite !andb_true_r.
  - unfold send_instructions. unfold bind at 1. unfold get_session at 1.
    cbv iota beta.
    destruct (extracted_text (session w)) as [text|]; [|reflexivity].
    cbn [nonempty]. now rewrite andb_false_r.
Qed.

Lemma send_instructions_is_summarize_now_witness :
  contains (lit "Customized Prompt")
    (10024%N :: lit " Customized Prompt (Chat)") = true
  /\ send_instructions env_primary_down
       (10024%N :: lit " Customized Prompt (Chat)") []
       (lit "GPT-4o") (lit "English") (world_with_text invoice_text true)
     = (Ok tt, world_with_text invoice_text true).
Proof.
  split; [reflexivity|].
  exact (proj2 (send_instructions_is_summarize_now env_primary_down
                  (10024%N :: lit " Customized Prompt (Chat)") []
                  (lit "GPT-4o") (lit "English")
                  (world_with_text invoice_text true) eq_refl)).
Defined.

(* ================================================================== *)
(** ** Concrete runs *)
(* ================================================================== *)

Example b64encode_Man : b64encode (lit "Man") = lit "TWFu".
Proof. reflexivity. Qed.

Example b64encode_Ma : b64encode (lit "Ma") = lit "TWE=".
Proof. reflexivity. Qed.

Example b64encode_M : b64encode (lit "M") = lit "TQ==".
Proof. reflexivity. Qed.

Example strip_upper_ocr :
  upper (fun c => [c]) (strip (lit " ocr  ")) = lit "OCR".
Proof. reflexivity. Qed.

Example split_keeps_empty_lines :
  split newline (lit "a" ++ [newline; newline] ++ lit "b" ++ [newline])
  = [lit "a"; []; lit "b"; []].
Proof. reflexivity. Qed.

Example manual_modes :
  contains (lit "AI Vision") mode_vision = true
  /\ contains (lit "AI Vision") mode_standard = false.
Proof. split; reflexivity. Qed.

(** The end-to-end scenario of the specification: manual standard OCR of a
    printed image, then "Short Summary" in English with the primary
    provider failing. *)
Example end_to_end_scenario :
  session
    (snd (summarize_now env_scenario (lit "Short Summary") (lit "GPT-4o")
            (lit "English")
            (snd (process_document env_scenario png_file false mode_standard
                    (lit "GPT-4o") fresh_world))))
  = {| summary_result := Some (lit "A $50 invoice.");
       extracted_text := Some invoice_text;
       doc_category := lit "Invoice";
       failover_active := true |}.
Proof. reflexivity. Qed.

(** A page that cannot be read turns the whole result into the error text;
    the pages read before it are dropped. *)
Example unreadable_second_page :
  fst (extract_text_standard
         (stub_env all_fail [1%N; 2%N]
            (fun page => if (page =? 1)%N then Ok (lit "Page one")
                         else Raise (lit "tesseract is not installed")))
         pdf_file fresh_world)
  = Ok (lit "OCR Error: tesseract is not installed").
Proof. reflexivity. Qed.

(** An empty PDF is a preparation failure of the vision path. *)
Example vision_empty_pdf :
  extract_text_vision env_all_down pdf_file (lit "Groq") fresh_world
  = (Ok (lit "Logic Error: list index out of range"),
     logged fresh_world [Call Fextract_text_vision]).
Proof. reflexivity. Qed.
